(** * ArTui article store (src/artui/database.py), shallow embedding.

    The SQLite database is modelled as five tables held in lists: the rows of
    [articles], [article_status], [tags], [article_tags], plus the
    AUTOINCREMENT sequence of [tags].  Each Python method of
    [ArticleDatabase] opens its own connection and runs its statements inside
    [with conn:], which commits on normal exit and rolls back on an exception.
    Timestamps ([datetime.now().isoformat()], published dates) are modelled
    as integers (seconds) compared with [<=?], as the ISO strings are
    compared by SQLite.  A character of a text is a Unicode code point of the
    Latin-1 block (U+0000 to U+00FF), held in an [ascii] byte. *)

From Stdlib Require Import String Ascii List ZArith Bool Lia.
From Stdlib Require Import Sorting.Permutation Sorting.Sorted.
Import ListNotations.
Open Scope Z_scope.

(** ** Rows *)

Record article := mkArticle {
  a_id : string;                  (* PRIMARY KEY, short arXiv id *)
  entry_id : string;
  title : string;
  authors : list string;          (* stored as a JSON array *)
  summary : string;
  categories : list string;       (* stored as a JSON array *)
  published_date : Z;
  pdf_url : string;
  citation_count : Z;
  citations_updated_at : option Z;
  created_at : Z;
  updated_at : Z;
  notes_file_path : option string
}.

Record status := mkStatus {
  s_article_id : string;          (* PRIMARY KEY *)
  is_saved : bool;                (* INTEGER 0/1 *)
  is_viewed : bool;               (* INTEGER 0/1 *)
  saved_at : option Z;
  viewed_at : option Z
}.

Record tag := mkTag {
  t_id : Z;                       (* INTEGER PRIMARY KEY AUTOINCREMENT *)
  t_name : string;                (* UNIQUE *)
  t_created_at : Z
}.

Record article_tag := mkArticleTag {
  at_article_id : string;         (* PRIMARY KEY (article_id, tag_id) *)
  at_tag_id : Z;
  at_created_at : Z
}.

Record db := mkDb {
  articles : list article;
  article_status : list status;
  tags : list tag;
  article_tags : list article_tag;
  tags_seq : Z                    (* sqlite_sequence entry of [tags] *)
}.

Definition empty_db : db := mkDb [] [] [] [] 0.

(** The fields of an [arxiv.Result] read by the ingestion code. *)
Record arxiv_result := mkResult {
  r_short_id : string;            (* article.get_short_id() *)
  r_entry_id : string;
  r_title : string;
  r_author_names : list string;   (* [author.name for author in article.authors] *)
  r_summary : string;
  r_categories : list string;
  r_published : Z;
  r_pdf_url : string
}.

(** ** Connections, transactions and exceptions *)

(** [IntegrityError] is raised by a violated PRIMARY KEY, UNIQUE or NOT NULL
    constraint; [OperationalError] is "database is locked", raised when a
    connection tries to write while another connection holds the write lock
    (after the 5 s busy timeout of [sqlite3.connect]). *)
Inductive exn := IntegrityError | OperationalError.

Inductive res (A : Type) := Ok (v : A) | Raise (e : exn).
Arguments Ok {A} v.
Arguments Raise {A} e.

(** State of one connection inside a [with conn:] block: the committed
    database, the connection's working copy, and whether it has opened a
    write transaction (Python's sqlite3 issues BEGIN before the first DML
    statement, which takes the RESERVED lock). *)
Record cstate := mkCState { committed : db; working : db; dirty : bool }.

(** Statements run on a connection; the boolean says whether another
    connection holds the write lock. *)
Definition sql (A : Type) := bool -> cstate -> res A * cstate.

(** A Python method: given whether the write lock is held by another
    connection and the committed database, its result and the database
    afterwards. *)
Definition method (A : Type) := bool -> db -> res A * db.

Definition sret {A} (x : A) : sql A := fun _ st => (Ok x, st).

Definition sbind {A B} (m : sql A) (k : A -> sql B) : sql B :=
  fun l st => match m l st with
              | (Ok x, st') => k x l st'
              | (Raise e, st') => (Raise e, st')
              end.

Notation "x <- m ;; k" := (sbind m (fun x => k))
  (at level 61, m at next level, right associativity).
Notation "m ;;; k" := (sbind m (fun _ => k))
  (at level 61, right associativity).

(** A SELECT: reads the working copy. *)
Definition query {A} (f : db -> A) : sql A := fun _ st => (Ok (f (working st)), st).

(** A DML statement: atomic on its own (a failing statement changes
    nothing), opens the write transaction, fails if another connection holds
    the write lock. *)
Definition exec {A} (f : db -> res (A * db)) : sql A :=
  fun locked st =>
    if locked then (Raise OperationalError, st)
    else match f (working st) with
         | Ok (x, d') => (Ok x, mkCState (committed st) d' true)
         | Raise e => (Raise e, mkCState (committed st) (working st) true)
         end.

(** [try: ... except sqlite3.IntegrityError: ...]: earlier statements of the
    [try] body stay in the transaction. *)
Definition catch_integrity {A} (m : sql A) (h : sql A) : sql A :=
  fun l st => match m l st with
              | (Raise IntegrityError, st') => h l st'
              | r => r
              end.

(** [with self.get_connection() as conn:] *)
Definition with_conn {A} (body : sql A) : method A :=
  fun locked d0 =>
    match body locked (mkCState d0 d0 false) with
    | (Ok x, st) => (Ok x, working st)
    | (Raise e, _) => (Raise e, d0)
    end.

(** A call, inside a [with] block, of a method that opens a second
    connection: it sees the committed database and is locked out from
    writing once this connection has written. *)
Definition nested {A} (p : method A) : sql A :=
  fun locked st =>
    if dirty st then
      let '(r, _) := p true (committed st) in (r, st)
    else
      let '(r, d') := p locked (working st) in (r, mkCState d' d' false).

Definition mret {A} (x : A) : method A := fun _ d => (Ok x, d).

Definition mbind {A B} (m : method A) (k : A -> method B) : method B :=
  fun l d => match m l d with
             | (Ok x, d') => k x l d'
             | (Raise e, d') => (Raise e, d')
             end.

Notation "x <-- m ;; k" := (mbind m (fun x => k))
  (at level 61, m at next level, right associativity).

(** A top-level call from the application (no other open connection). *)
Definition run {A} (m : method A) (d : db) : res A * db := m false d.

(** ** Statements on the tables *)

Definition set_articles (d : db) (l : list article) : db :=
  mkDb l (article_status d) (tags d) (article_tags d) (tags_seq d).
Definition set_status (d : db) (l : list status) : db :=
  mkDb (articles d) l (tags d) (article_tags d) (tags_seq d).
Definition set_article_tags (d : db) (l : list article_tag) : db :=
  mkDb (articles d) (article_status d) (tags d) l (tags_seq d).
Definition set_tags (d : db) (l : list tag) (seq : Z) : db :=
  mkDb (articles d) (article_status d) l (article_tags d) seq.

(** [SELECT ... FROM article_status WHERE article_id = ?] + [fetchone()]. *)
Definition status_row (d : db) (aid : string) : option status :=
  find (fun s => String.eqb (s_article_id s) aid) (article_status d).

Definition tag_row (d : db) (name : string) : option tag :=
  find (fun t => String.eqb (t_name t) name) (tags d).

(** [INSERT INTO articles ...]: PRIMARY KEY on [id]. *)
Definition insert_article (a : article) (d : db) : res (unit * db) :=
  if existsb (fun b => String.eqb (a_id b) (a_id a)) (articles d)
  then Raise IntegrityError
  else Ok (tt, set_articles d (articles d ++ [a])).

(** [INSERT INTO article_status ...]: PRIMARY KEY on [article_id]. *)
Definition insert_status (s : status) (d : db) : res (unit * db) :=
  if existsb (fun t => String.eqb (s_article_id t) (s_article_id s)) (article_status d)
  then Raise IntegrityError
  else Ok (tt, set_status d (article_status d ++ [s])).

(** [INSERT OR REPLACE INTO article_status ...]: the conflicting row is
    deleted and the new one inserted. *)
Definition replace_status (s : status) (d : db) : res (unit * db) :=
  Ok (tt, set_status d (filter (fun t => negb (String.eqb (s_article_id t) (s_article_id s)))
                              (article_status d) ++ [s])).

Definition max_tag_id (d : db) : Z := fold_right (fun t m => Z.max (t_id t) m) 0 (tags d).

(** [INSERT INTO tags (name, created_at)]: UNIQUE on [name]; the new id is
    one more than the largest id ever used (AUTOINCREMENT); returns
    [cursor.lastrowid]. *)
Definition insert_tag (name : string) (now : Z) (d : db) : res (Z * db) :=
  if existsb (fun t => String.eqb (t_name t) name) (tags d) then Raise IntegrityError
  else let id := Z.max (tags_seq d) (max_tag_id d) + 1 in
       Ok (id, set_tags d (tags d ++ [mkTag id name now]) id).

(** [INSERT INTO article_tags (article_id, tag_id, created_at)]: NOT NULL on
    [tag_id], PRIMARY KEY on the pair. *)
Definition insert_article_tag (aid : string) (tid : option Z) (now : Z) (d : db)
  : res (unit * db) :=
  match tid with
  | None => Raise IntegrityError
  | Some t =>
      if existsb (fun l => String.eqb (at_article_id l) aid && (at_tag_id l =? t)) (article_tags d)
      then Raise IntegrityError
      else Ok (tt, set_article_tags d (article_tags d ++ [mkArticleTag aid t now]))
  end.

(** [UPDATE article_status SET ... WHERE ...]; returns [cursor.rowcount]. *)
Definition update_status (p : status -> bool) (f : status -> status) (d : db)
  : res (nat * db) :=
  Ok (length (filter p (article_status d)),
      set_status d (map (fun s => if p s then f s else s) (article_status d))).

(** The promotion statement shared by [add_article_tag] and [set_notes_path]:
    [INSERT OR REPLACE INTO article_status (article_id, is_saved, is_viewed,
    saved_at, viewed_at) VALUES (?, 1, COALESCE((SELECT is_viewed ...), 0), ?,
    (SELECT viewed_at ...))]. *)
Definition promote_saved (aid : string) (now : Z) (d : db) : res (unit * db) :=
  let old := status_row d aid in
  let v := match old with Some s => is_viewed s | None => false end in
  let vat := match old with Some s => viewed_at s | None => None end in
  replace_status (mkStatus aid true v (Some now) vat) d.

(** ** Ingestion *)

Definition article_of_result (r : arxiv_result) (now : Z) : article :=
  mkArticle (r_short_id r) (r_entry_id r) (r_title r) (r_author_names r) (r_summary r)
            (r_categories r) (r_published r) (r_pdf_url r) 0 None now now None.

Definition default_status (aid : string) : status := mkStatus aid false false None None.

Definition article_exists (aid : string) : method bool :=
  with_conn (query (fun d => existsb (fun a => String.eqb (a_id a) aid) (articles d))).

Definition add_article (now : Z) (r : arxiv_result) : method bool :=
  b <-- article_exists (r_short_id r) ;;
  if b then mret false
  else (_ <-- with_conn (exec (insert_article (article_of_result r now)) ;;;
                         exec (insert_status (default_status (r_short_id r)))) ;;
        mret true).

Fixpoint batch_loop (now : Z) (rs : list arxiv_result) (added_count : nat) : sql nat :=
  match rs with
  | [] => sret added_count
  | r :: rs' =>
      e <- query (fun d => existsb (fun a => String.eqb (a_id a) (r_short_id r)) (articles d)) ;;
      if e then batch_loop now rs' added_count
      else
        ok <- catch_integrity
                (exec (insert_article (article_of_result r now)) ;;;
                 exec (insert_status (default_status (r_short_id r))) ;;;
                 sret true)
                (sret false) ;;
        batch_loop now rs' (if ok then S added_count else added_count)
  end.

Definition add_articles_batch (now : Z) (rs : list arxiv_result) : method nat :=
  with_conn (batch_loop now rs 0).

(** ** Status management *)

Definition mark_article_viewed (now : Z) (aid : string) : method unit :=
  with_conn (exec (update_status
                     (fun s => String.eqb (s_article_id s) aid && negb (is_viewed s))
                     (fun s => mkStatus (s_article_id s) (is_saved s) true (saved_at s) (Some now)))
             ;;; sret tt).

Definition mark_article_saved (now : Z) (aid : string) : method bool :=
  with_conn (
    row <- query (fun d => status_row d aid) ;;
    match row with
    | None => exec (insert_status (mkStatus aid true false (Some now) None)) ;;; sret true
    | Some s =>
        if is_saved s then sret false
        else exec (update_status (fun s => String.eqb (s_article_id s) aid)
                     (fun s => mkStatus (s_article_id s) true (is_viewed s) (Some now) (viewed_at s)))
             ;;; sret true
    end).

Definition mark_article_unsaved (aid : string) : method bool :=
  with_conn (
    n <- exec (update_status (fun s => String.eqb (s_article_id s) aid && is_saved s)
                 (fun s => mkStatus (s_article_id s) false (is_viewed s) None (viewed_at s))) ;;
    sret (Nat.ltb 0 n)).

Definition mark_article_unread (aid : string) : method bool :=
  with_conn (
    n <- exec (update_status (fun s => String.eqb (s_article_id s) aid && is_viewed s)
                 (fun s => mkStatus (s_article_id s) (is_saved s) false (saved_at s) None)) ;;
    sret (Nat.ltb 0 n)).

(** ** Tag management *)

(** [add_tag]: insert, or on [IntegrityError] look the existing id up
    ([result['id'] if result else None]). *)
Definition add_tag (now : Z) (name : string) : method (option Z) :=
  with_conn (catch_integrity
               (i <- exec (insert_tag name now) ;; sret (Some i))
               (query (fun d => option_map t_id (tag_row d name)))).

Definition add_article_tag (now : Z) (aid : string) (tag_name : string) : method bool :=
  tag_id <-- add_tag now tag_name ;;
  with_conn (catch_integrity
               (exec (insert_article_tag aid tag_id now) ;;;
                exec (promote_saved aid now) ;;;
                sret true)
               (sret false)).

(** [DELETE FROM article_tags WHERE article_id = ? AND tag_id = (SELECT id
    FROM tags WHERE name = ?)]: the scalar subquery yields the first match,
    or NULL, which matches no row. *)
Definition delete_article_tag (aid : string) (tag_name : string) (d : db) : res (nat * db) :=
  let p := fun l => String.eqb (at_article_id l) aid &&
                    match tag_row d tag_name with
                    | Some t => at_tag_id l =? t_id t
                    | None => false
                    end in
  Ok (length (filter p (article_tags d)),
      set_article_tags d (filter (fun l => negb (p l)) (article_tags d))).

Definition remove_article_tag (aid : string) (tag_name : string) : method bool :=
  with_conn (n <- exec (delete_article_tag aid tag_name) ;; sret (Nat.ltb 0 n)).

Definition tag_is_linked (d : db) (t : tag) : bool :=
  existsb (fun l => at_tag_id l =? t_id t) (article_tags d).

(** [DELETE FROM tags WHERE id NOT IN (SELECT DISTINCT tag_id FROM
    article_tags)]; returns [cursor.rowcount]. *)
Definition delete_orphan_tags (d : db) : res (nat * db) :=
  Ok (length (filter (fun t => negb (tag_is_linked d t)) (tags d)),
      set_tags d (filter (tag_is_linked d) (tags d)) (tags_seq d)).

Definition cleanup_orphan_tags : method nat :=
  with_conn (exec delete_orphan_tags).

(** ** Retention sweep *)

Definition seconds_per_day : Z := 86400.

(** [LEFT JOIN article_status s ON a.id = s.article_id]: the matching status
    rows, or a single row of NULLs. *)
Definition left_join_status (d : db) (a : article) : list (option status) :=
  match filter (fun s => String.eqb (s_article_id s) (a_id a)) (article_status d) with
  | [] => [None]
  | l => map Some l
  end.

Definition joined (d : db) : list (article * option status) :=
  flat_map (fun a => map (pair a) (left_join_status d a)) (articles d).

(** [s.is_saved IS NULL OR s.is_saved = 0] *)
Definition unsaved (so : option status) : bool :=
  match so with None => true | Some s => negb (is_saved s) end.

(** [s.is_viewed IS NULL OR s.is_viewed = 0] *)
Definition unviewed (so : option status) : bool :=
  match so with None => true | Some s => negb (is_viewed s) end.

(** [SELECT a.id FROM articles a LEFT JOIN article_status s ... WHERE
    a.published_date < ? AND (s.is_saved IS NULL OR s.is_saved = 0)] *)
Definition old_unsaved_ids (d : db) (cutoff : Z) : list string :=
  map (fun p => a_id (fst p))
      (filter (fun p => (published_date (fst p) <? cutoff) && unsaved (snd p)) (joined d)).

Definition in_ids (ids : list string) (x : string) : bool := existsb (String.eqb x) ids.

Definition delete_article_tags_in (ids : list string) (d : db) : res (unit * db) :=
  Ok (tt, set_article_tags d (filter (fun l => negb (in_ids ids (at_article_id l))) (article_tags d))).

Definition delete_status_in (ids : list string) (d : db) : res (unit * db) :=
  Ok (tt, set_status d (filter (fun s => negb (in_ids ids (s_article_id s))) (article_status d))).

Definition delete_articles_in (ids : list string) (d : db) : res (nat * db) :=
  Ok (length (filter (fun a => in_ids ids (a_id a)) (articles d)),
      set_articles d (filter (fun a => negb (in_ids ids (a_id a))) (articles d))).

Definition cleanup_old_unsaved_articles (now : Z) (retention_days : Z) : method nat :=
  let cutoff_date := now - retention_days * seconds_per_day in
  with_conn (
    ids <- query (fun d => old_unsaved_ids d cutoff_date) ;;
    match ids with
    | [] => sret 0%nat
    | _ :: _ =>
        exec (delete_article_tags_in ids) ;;;
        exec (delete_status_in ids) ;;;
        deleted_count <- exec (delete_articles_in ids) ;;
        nested cleanup_orphan_tags ;;;
        sret deleted_count
    end).

(** ** Notes *)

Definition update_notes (aid : string) (path : string) (d : db) : res (nat * db) :=
  let p := fun a => String.eqb (a_id a) aid in
  Ok (length (filter p (articles d)),
      set_articles d (map (fun a => if p a then
                              mkArticle (a_id a) (entry_id a) (title a) (authors a) (summary a)
                                (categories a) (published_date a) (pdf_url a) (citation_count a)
                                (citations_updated_at a) (created_at a) (updated_at a) (Some path)
                            else a) (articles d))).

Definition set_notes_path (now : Z) (aid : string) (path : string) : method bool :=
  with_conn (
    n <- exec (update_notes aid path) ;;
    (if Nat.ltb 0 n then exec (promote_saved aid now) else sret tt) ;;;
    sret (Nat.ltb 0 n)).

(** ** Query composer *)

(** The row shape shared by the listings: [a.*], the status columns (NULL
    when there is no status row) and the derived [has_tags]. *)
Record row := mkRow {
  row_article : article;
  row_is_saved : option bool;
  row_is_viewed : option bool;
  row_saved_at : option Z;
  row_viewed_at : option Z;
  row_has_tags : bool
}.

(** [SELECT DISTINCT article_id FROM article_tags] *)
Definition distinct_tagged (d : db) : list string :=
  nodup string_dec (map at_article_id (article_tags d)).

(** [LEFT JOIN (SELECT DISTINCT article_id FROM article_tags) at ON a.id =
    at.article_id], then [CASE WHEN at.article_id IS NOT NULL THEN 1 ELSE 0
    END as has_tags]. *)
Definition left_join_tagged (d : db) (a : article) : list bool :=
  match filter (String.eqb (a_id a)) (distinct_tagged d) with
  | [] => [false]
  | l => map (fun _ => true) l
  end.

(** [s.is_saved, s.is_viewed] as selected: NULL-able, or wrapped in
    [COALESCE(..., 0)] when [coalesce] is set ([get_all_articles]). *)
Definition mk_row (coalesce : bool) (a : article) (so : option status) (ht : bool) : row :=
  let sv := option_map is_saved so in
  let vw := option_map is_viewed so in
  mkRow a (if coalesce then Some (match sv with Some b => b | None => false end) else sv)
          (if coalesce then Some (match vw with Some b => b | None => false end) else vw)
          (match so with Some s => saved_at s | None => None end)
          (match so with Some s => viewed_at s | None => None end)
          ht.

(** [FROM articles a LEFT JOIN article_status s ... LEFT JOIN (SELECT
    DISTINCT ...) at ... WHERE p], before ORDER BY. *)
Definition select_rows (coalesce : bool) (p : article -> option status -> bool) (d : db)
  : list row :=
  flat_map (fun a =>
    flat_map (fun so =>
      if p a so then map (mk_row coalesce a so) (left_join_tagged d a) else [])
      (left_join_status d a))
    (articles d).

(** [SELECT COUNT( * ) FROM articles a LEFT JOIN article_status s ... WHERE p] *)
Definition count_rows (p : article -> option status -> bool) (d : db) : nat :=
  length (filter (fun x => p (fst x) (snd x)) (joined d)).

(** [_get_feed_retention_filter]: ["1=1"] without a window, otherwise
    [(a.published_date >= cutoff OR s.is_viewed IS NULL OR s.is_viewed = 0)]. *)
Definition feed_retention_filter (retention_days : option Z) (now : Z)
  (a : article) (so : option status) : bool :=
  match retention_days with
  | None => true
  | Some days => (now - days * seconds_per_day <=? published_date a) || unviewed so
  end.

(** [EXISTS (SELECT 1 FROM json_each(a.categories) WHERE json_each.value = ?)] *)
Definition in_category (c : string) (a : article) : bool :=
  existsb (String.eqb c) (categories a).

(** ORDER BY ... DESC: any permutation of the selected rows sorted on the
    key, most recent first; SQLite fixes no order among equal keys. *)
Definition ordered_desc {K} (le : K -> K -> Prop) (key : row -> K) (rows out : list row) : Prop :=
  Permutation rows out /\ Sorted (fun r1 r2 => le (key r2) (key r1)) out.

Definition by_published (r : row) : Z := published_date (row_article r).

(** SQLite sorts NULL below every value. *)
Definition opt_le (x y : option Z) : Prop :=
  match x, y with
  | None, _ => True
  | Some _, None => False
  | Some a, Some b => a <= b
  end.

(** ** Listings *)

Definition get_all_articles (d : db) (retention_days : option Z) (now : Z) (out : list row) : Prop :=
  ordered_desc Z.le by_published
    (select_rows true (feed_retention_filter retention_days now) d) out.

Definition get_articles_by_category (d : db) (category : string) (retention_days : option Z)
  (now : Z) (out : list row) : Prop :=
  ordered_desc Z.le by_published
    (select_rows false (fun a so => in_category category a &&
                                    feed_retention_filter retention_days now a so) d) out.

Definition get_unread_articles (d : db) (out : list row) : Prop :=
  ordered_desc Z.le by_published (select_rows false (fun _ so => unviewed so) d) out.

(** [FROM articles a INNER JOIN article_status s ... WHERE s.is_saved = 1
    ORDER BY s.saved_at DESC] *)
Definition select_saved (d : db) : list row :=
  flat_map (fun a =>
    flat_map (fun s =>
      if String.eqb (s_article_id s) (a_id a) && is_saved s
      then map (mk_row false a (Some s)) (left_join_tagged d a) else [])
      (article_status d))
    (articles d).

Definition get_saved_articles (d : db) (out : list row) : Prop :=
  ordered_desc opt_le row_saved_at (select_saved d) out.

(** [FROM articles a LEFT JOIN article_status s INNER JOIN article_tags at
    INNER JOIN tags t WHERE t.name = ? AND q], with [1 as has_tags]. *)
Definition tag_join (d : db) (tag_name : string) (a : article) : list unit :=
  flat_map (fun l =>
    if String.eqb (at_article_id l) (a_id a)
    then flat_map (fun t => if (at_tag_id l =? t_id t) && String.eqb (t_name t) tag_name
                            then [tt] else []) (tags d)
    else []) (article_tags d).

Definition select_by_tag (d : db) (tag_name : string) (q : option status -> bool) : list row :=
  flat_map (fun a =>
    flat_map (fun so =>
      if q so then map (fun _ => mk_row false a so true) (tag_join d tag_name a) else [])
      (left_join_status d a))
    (articles d).

Definition get_articles_by_tag (d : db) (tag_name : string) (out : list row) : Prop :=
  ordered_desc Z.le by_published (select_by_tag d tag_name (fun _ => true)) out.

(** ** Counters *)

Definition get_all_articles_count (d : db) : nat := length (articles d).


Definition get_feed_articles_count (d : db) (retention_days : option Z) (now : Z) : nat :=
  count_rows (feed_retention_filter retention_days now) d.




Definition unread_row (r : row) : bool :=
  match row_is_viewed r with None => true | Some v => negb v end.

(** ** Free-text search *)

Local Open Scope string_scope.

(** SQLite folds case in LIKE for ASCII letters only. *)
Definition lower_ascii (c : ascii) : ascii :=
  let n := nat_of_ascii c in
  if (Nat.leb 65 n && Nat.leb n 90)%bool then ascii_of_nat (n + 32) else c.

Fixpoint suffixes (s : string) : list string :=
  s :: match s with EmptyString => [] | String _ s' => suffixes s' end.

(** [s LIKE p] without ESCAPE: [%] matches any run, [_] any one character. *)
Fixpoint like_match (p s : string) : bool :=
  match p with
  | EmptyString => match s with EmptyString => true | _ => false end
  | String c p' =>
      if Ascii.eqb c "%"%char then existsb (fun t => like_match p' t) (suffixes s)
      else if Ascii.eqb c "_"%char then
        match s with EmptyString => false | String _ s' => like_match p' s' end
      else
        match s with
        | EmptyString => false
        | String c' s' => Ascii.eqb (lower_ascii c) (lower_ascii c') && like_match p' s'
        end
  end.

Definition dquote : string := String (ascii_of_nat 34) EmptyString.
Definition bslash : string := String (ascii_of_nat 92) EmptyString.

Definition hex_digit (n : nat) : ascii :=
  ascii_of_nat (if Nat.ltb n 10 then 48 + n else 87 + n).

(** [\u00xx] with lower-case hex digits. *)
Definition u_escape (n : nat) : string :=
  bslash ++ "u00" ++ String (hex_digit (n / 16)) (String (hex_digit (n mod 16)) EmptyString).

(** [json.dumps] with [ensure_ascii=True]: the two-character escapes of
    [ESCAPE_DCT], and [\u00xx] for every other character outside the
    printable ASCII range (space to [~]). *)
Fixpoint json_escape (s : string) : string :=
  match s with
  | EmptyString => EmptyString
  | String c s' =>
      let n := nat_of_ascii c in
      (if Nat.eqb n 34 then bslash ++ dquote
       else if Nat.eqb n 92 then bslash ++ bslash
       else if Nat.eqb n 8 then bslash ++ "b"
       else if Nat.eqb n 12 then bslash ++ "f"
       else if Nat.eqb n 10 then bslash ++ "n"
       else if Nat.eqb n 13 then bslash ++ "r"
       else if Nat.eqb n 9 then bslash ++ "t"
       else if Nat.ltb n 32 || Nat.leb 127 n then u_escape n
       else String c EmptyString) ++ json_escape s'
  end.

(** [json.dumps(list_of_str)]: the text stored in the [authors] column. *)
Definition json_dumps (l : list string) : string :=
  "[" ++ String.concat ", " (map (fun s => dquote ++ json_escape s ++ dquote) l) ++ "]".

(** [(a.title LIKE ? OR a.authors LIKE ? OR a.summary LIKE ?)] with
    [search_term = f"%{query}%"]. *)
Definition text_match (query_text : string) (a : article) : bool :=
  let pat := "%" ++ query_text ++ "%" in
  like_match pat (title a) || like_match pat (json_dumps (authors a)) ||
  like_match pat (summary a).

Definition search_articles (d : db) (query_text : string) (retention_days : option Z) (now : Z)
  (out : list row) : Prop :=
  ordered_desc Z.le by_published
    (select_rows false (fun a so => text_match query_text a &&
                                    feed_retention_filter retention_days now a so) d) out.

Definition search_articles_in_categories (d : db) (query_text : string) (cats : list string)
  (retention_days : option Z) (now : Z) (out : list row) : Prop :=
  match cats with
  | [] => search_articles d query_text retention_days now out
  | _ :: _ =>
      ordered_desc Z.le by_published
        (select_rows false (fun a so => existsb (fun c => in_category c a) cats &&
                                        text_match query_text a &&
                                        feed_retention_filter retention_days now a so) d) out
  end.

(** The status flags as the spec reads them: a missing status row counts
    as unsaved and unviewed, with no timestamps. *)
Definition saved_flag (d : db) (aid : string) : bool :=
  match status_row d aid with Some s => is_saved s | None => false end.

Definition viewed_flag (d : db) (aid : string) : bool :=
  match status_row d aid with Some s => is_viewed s | None => false end.

Definition viewed_time (d : db) (aid : string) : option Z :=
  match status_row d aid with Some s => viewed_at s | None => None end.

Definition article_row (d : db) (aid : string) : option article :=
  find (fun a => String.eqb (a_id a) aid) (articles d).

Definition count_article_rows (d : db) (aid : string) : nat :=
  length (filter (fun a => String.eqb (a_id a) aid) (articles d)).

(** ** Sample stores and auxiliary definitions *)

Definition promotes (d d' : db) (aid : string) : Prop :=
  saved_flag d' aid = true /\ viewed_flag d' aid = viewed_flag d aid /\
  viewed_time d' aid = viewed_time d aid.

Definition art (aid : string) (pub : Z) (cats : list string) : article :=
  mkArticle aid ("http://arxiv.org/abs/" ++ aid) "Title" ["A. Author"] "Summary" cats pub
            ("http://arxiv.org/pdf/" ++ aid) 0 None 0 0 None.

Definition id1 : string := "2401.00001v1".
Definition id2 : string := "2401.00002v1".

(** One article, unsaved and unviewed, already tagged "x". *)
Definition db_tagged : db :=
  mkDb [art id1 0 ["cs.AI"]] [default_status id1] [mkTag 1 "x" 0] [mkArticleTag id1 1 0] 1.

(** The same article, not yet tagged. *)
Definition db_untagged : db :=
  mkDb [art id1 0 ["cs.AI"]] [mkStatus id1 false true None (Some 5)] [] [] 0.

Definition result1 : arxiv_result :=
  mkResult id1 ("http://arxiv.org/abs/" ++ id1) "Title" ["A. Author"] "Summary" ["cs.AI"] 0
           ("http://arxiv.org/pdf/" ++ id1).

(** The store after [mark_article_saved(id1)] on an empty store, as done by
    [migrate_from_text_files] for an id listed in [saved_articles.txt]: a
    status row for id1 and no article row. *)
Definition db_saved_before_ingest : db := snd (run (mark_article_saved 50 id1) empty_db).

(** One unsaved article published 40 days before [now]. *)
Definition now0 : Z := 1000 * seconds_per_day.

Definition db_old_unsaved : db :=
  mkDb [art id1 (now0 - 40 * seconds_per_day) ["cs.AI"]] [default_status id1] [] [] 0.

Definition fresh_tag_id (d : db) : Z := Z.max (tags_seq d) (max_tag_id d) + 1.

(** Every link to a tag named [name] points to [t] and comes from an
    article in [S]. *)
Definition links_within (d : db) (name : string) (t : tag) (S : list string) : Prop :=
  forall l t', In l (article_tags d) -> In t' (tags d) -> t_name t' = name ->
    at_tag_id l = t_id t' -> at_tag_id l = t_id t /\ In (at_article_id l) S.

(** Tag two articles with "x", then remove both links. *)
Definition tag_two_then_untag (now : Z) (a b : string) (d : db) : db :=
  let d1 := snd (run (add_article_tag now a "x") d) in
  let d2 := snd (run (add_article_tag now b "x") d1) in
  let d3 := snd (run (remove_article_tag a "x") d2) in
  snd (run (remove_article_tag b "x") d3).

Definition old_article : article := art id1 (now0 - 1000 * seconds_per_day) ["cs.AI"].
Definition db_old_unviewed : db := mkDb [old_article] [default_status id1] [] [] 0.
Definition db_old_viewed : db :=
  mkDb [old_article] [mkStatus id1 false true None (Some 5)] [] [] 0.

Definition opt_leb (x y : option Z) : bool :=
  match x, y with
  | None, _ => true
  | Some _, None => false
  | Some a, Some b => Z.leb a b
  end.

(** Two saved articles: id1 published earlier but saved later. *)
Definition db_saved_two : db :=
  mkDb [art id1 100 []; art id2 200 []]
       [mkStatus id1 true false (Some 20) None; mkStatus id2 true false (Some 10) None] [] [] 0.

(** Two articles published at the same instant. *)
Definition db_tied : db :=
  mkDb [art id1 100 []; art id2 100 []] [default_status id1; default_status id2] [] [] 0.



(** The listings ordered by [published_date DESC], with their arguments. *)
Inductive listing : Type :=
| all_articles (retention_days : option Z) (now : Z)
| by_category (category : string) (retention_days : option Z) (now : Z)
| by_tag (tag_name : string)
| unread_articles
| search (query_text : string) (retention_days : option Z) (now : Z)
| search_in_categories (query_text : string) (cats : list string) (retention_days : option Z)
    (now : Z).

Definition listing_result (d : db) (k : listing) (out : list row) : Prop :=
  match k with
  | all_articles r n => get_all_articles d r n out
  | by_category c r n => get_articles_by_category d c r n out
  | by_tag t => get_articles_by_tag d t out
  | unread_articles => get_unread_articles d out
  | search q r n => search_articles d q r n out
  | search_in_categories q cats r n => search_articles_in_categories d q cats r n out
  end.

(** Insertion sort on a key, descending: one admissible result of an
    [ORDER BY ... DESC]. *)
Section SortDescDef.
Variable K : Type.
Variable leb : K -> K -> bool.
Variable key : row -> K.

Fixpoint insert_desc (r : row) (l : list row) : list row :=
  match l with
  | [] => [r]
  | x :: l' => if leb (key x) (key r) then r :: l else x :: insert_desc r l'
  end.

Fixpoint sort_desc (l : list row) : list row :=
  match l with
  | [] => []
  | x :: l' => insert_desc x (sort_desc l')
  end.

End SortDescDef.

Arguments insert_desc {K} leb key r l.
Arguments sort_desc {K} leb key l.

(** ** Further methods of [ArticleDatabase] *)

Local Close Scope string_scope.

(** ** Remaining listings and counters *)

Definition has_notes (a : article) : bool :=
  match notes_file_path a with Some _ => true | None => false end.

(** [get_articles_with_notes]: [WHERE a.notes_file_path IS NOT NULL ORDER BY
    a.published_date DESC]. *)
Definition get_articles_with_notes (d : db) (out : list row) : Prop :=
  ordered_desc Z.le by_published (select_rows false (fun a _ => has_notes a) d) out.

(** [SELECT COUNT( * ) FROM articles a INNER JOIN article_status s ON a.id =
    s.article_id WHERE s.is_saved = 1 AND (s.is_viewed IS NULL OR s.is_viewed = 0)] *)
Definition get_unread_saved_count (d : db) : nat :=
  length (flat_map (fun a =>
            filter (fun s => String.eqb (s_article_id s) (a_id a) && is_saved s &&
                             negb (is_viewed s)) (article_status d))
          (articles d)).

(** [get_unread_count_with_notes] *)
Definition get_unread_count_with_notes (d : db) : nat :=
  count_rows (fun a so => has_notes a && unviewed so) d.

Fixpoint str_map (f : ascii -> ascii) (s : string) : string :=
  match s with
  | EmptyString => EmptyString
  | String c s' => String (f c) (str_map f s')
  end.

(** Python's [str.lower()] on U+0000 to U+00FF: A-Z, U+00C0 to U+00D6 and
    U+00D8 to U+00DE map to the code point 32 above. *)
Definition py_lower_char (c : ascii) : ascii :=
  let n := nat_of_ascii c in
  if (Nat.leb 65 n && Nat.leb n 90) || (Nat.leb 192 n && Nat.leb n 214) ||
     (Nat.leb 216 n && Nat.leb n 222)
  then ascii_of_nat (n + 32) else c.

Definition py_lower (s : string) : string := str_map py_lower_char s.

(** SQLite's built-in [LOWER()] folds ASCII letters only. *)
Definition sql_lower (s : string) : string := str_map lower_ascii s.

(** The keys of a filter configuration read by [get_unread_count_by_filter]:
    [filter_config.get("categories")], [filter_config.get("query")], and the
    names of the other keys (the dict is empty when all three are absent). *)
Record filter_config := mkFilterConfig {
  flt_categories : option (list string);
  flt_query : option string;
  flt_other_keys : list string
}.

Definition flt_is_empty (fc : filter_config) : bool :=
  match flt_categories fc, flt_query fc, flt_other_keys fc with
  | None, None, [] => true
  | _, _, _ => false
  end.

(** Python truthiness of the two values. *)
Definition truthy_list (o : option (list string)) : bool :=
  match o with Some (_ :: _) => true | _ => false end.
Definition truthy_str (o : option string) : bool :=
  match o with Some (String _ _) => true | _ => false end.

Definition any_category (cats : list string) (a : article) : bool :=
  existsb (fun c => in_category c a) cats.

(** [(LOWER(a.title) LIKE ? OR LOWER(a.authors) LIKE ? OR LOWER(a.summary) LIKE ?)]
    with [f'%{query}%'] for the lowered query. *)
Definition text_match_lower (q : string) (a : article) : bool :=
  let pat := ("%" ++ q ++ "%")%string in
  like_match pat (sql_lower (title a)) || like_match pat (sql_lower (json_dumps (authors a))) ||
  like_match pat (sql_lower (summary a)).

Definition get_unread_count_by_filter (d : db) (fc : filter_config)
  (feed_retention_days : option Z) (now : Z) : nat :=
  if flt_is_empty fc then 0%nat
  else if truthy_list (flt_categories fc) then
    let cats := match flt_categories fc with Some l => l | None => [] end in
    if truthy_str (flt_query fc) then
      let q := py_lower (match flt_query fc with Some q => q | None => EmptyString end) in
      count_rows (fun a so => any_category cats a && text_match_lower q a && unviewed so &&
                              feed_retention_filter feed_retention_days now a so) d
    else
      count_rows (fun a so => any_category cats a && unviewed so &&
                              feed_retention_filter feed_retention_days now a so) d
  else if truthy_str (flt_query fc) then
    let q := py_lower (match flt_query fc with Some q => q | None => EmptyString end) in
    count_rows (fun a so => text_match_lower q a && unviewed so &&
                            feed_retention_filter feed_retention_days now a so) d
  else 0%nat.

(** ** Tags: listing and lookups *)

(** [COUNT(at.article_id)] of the group of tag [t] in [tags t LEFT JOIN
    article_tags at ON t.id = at.tag_id GROUP BY t.id]: the number of links
    to [t] ([article_id] is NOT NULL; the NULL row of an unlinked tag counts 0). *)
Definition tag_link_count (d : db) (t : tag) : nat :=
  length (filter (fun l => at_tag_id l =? t_id t) (article_tags d)).

(** [get_all_tags]: one group per tag row ([id] is the primary key), ordered
    by [t.name] (BINARY collation: byte order). *)
Definition get_all_tags (d : db) (out : list (tag * nat)) : Prop :=
  Permutation (map (fun t => (t, tag_link_count d t)) (tags d)) out /\
  Sorted (fun x y => String.leb (t_name (fst x)) (t_name (fst y)) = true) out.

(** [SELECT t.name FROM tags t INNER JOIN article_tags at ON t.id = at.tag_id
    WHERE at.article_id = ?], before ORDER BY. *)
Definition article_tag_names (d : db) (aid : string) : list string :=
  flat_map (fun t =>
    flat_map (fun l => if (t_id t =? at_tag_id l) && String.eqb (at_article_id l) aid
                       then [t_name t] else [])
      (article_tags d))
    (tags d).

Definition get_article_tags (d : db) (aid : string) (out : list string) : Prop :=
  Permutation (article_tag_names d aid) out /\ Sorted (fun x y => String.leb x y = true) out.

(** [SELECT 1 FROM article_tags WHERE article_id = ? LIMIT 1] *)
Definition article_has_tags (d : db) (aid : string) : bool :=
  existsb (fun l => String.eqb (at_article_id l) aid) (article_tags d).

(** ** Notes *)

(** [SELECT notes_file_path FROM articles WHERE id = ?] *)
Definition get_notes_path (d : db) (aid : string) : option string :=
  match article_row d aid with Some a => notes_file_path a | None => None end.

(** [UPDATE articles SET notes_file_path = NULL WHERE id = ?] *)
Definition clear_notes (aid : string) (d : db) : res (nat * db) :=
  let p := fun a => String.eqb (a_id a) aid in
  Ok (length (filter p (articles d)),
      set_articles d (map (fun a => if p a then
                              mkArticle (a_id a) (entry_id a) (title a) (authors a) (summary a)
                                (categories a) (published_date a) (pdf_url a) (citation_count a)
                                (citations_updated_at a) (created_at a) (updated_at a) None
                            else a) (articles d))).

Definition clear_notes_path (aid : string) : method bool :=
  with_conn (n <- exec (clear_notes aid) ;; sret (Nat.ltb 0 n)).

(** ** Category fetch tracking: the [fetched_categories] table, which no
    other method reads or writes. *)

Record fetched_category := mkFetched {
  category_code : string;         (* PRIMARY KEY *)
  category_name : string;
  last_fetched : Z;
  fetched_article_count : Z
}.

(** [INSERT OR REPLACE INTO fetched_categories ... VALUES (?, ?, now, ?)] *)
Definition update_category_fetch_info (now : Z) (code name : string) (n : Z)
  (tbl : list fetched_category) : list fetched_category :=
  filter (fun r => negb (String.eqb (category_code r) code)) tbl ++ [mkFetched code name now n].

(** [SELECT * FROM fetched_categories WHERE category_code = ?] + [fetchone()] *)
Definition get_category_fetch_info (tbl : list fetched_category) (code : string)
  : option fetched_category :=
  find (fun r => String.eqb (category_code r) code) tbl.

(** ** Migration from the text files *)

(** [str.isspace] on U+0000 to U+00FF: \t \n \v \f \r, \x1c-\x1f, space,
    U+0085 and U+00A0. *)
Definition is_space (c : ascii) : bool :=
  let n := nat_of_ascii c in
  (Nat.leb 9 n && Nat.leb n 13) || (Nat.leb 28 n && Nat.leb n 32) ||
  Nat.eqb n 133 || Nat.eqb n 160.

Fixpoint lstrip (s : string) : string :=
  match s with
  | EmptyString => EmptyString
  | String c s' => if is_space c then lstrip s' else s
  end.

Fixpoint str_rev (s : string) (acc : string) : string :=
  match s with
  | EmptyString => acc
  | String c s' => str_rev s' (String c acc)
  end.

(** [line.strip()] *)
Definition strip (s : string) : string :=
  str_rev (lstrip (str_rev (lstrip s) EmptyString)) EmptyString.

Definition nonempty (s : string) : bool :=
  match s with EmptyString => false | _ => true end.

(** [set(line.strip() for line in f if line.strip())], enumerated in one
    order (a Python set fixes none). *)
Definition line_set (lines : list string) : list string :=
  nodup string_dec (filter nonempty (map strip lines)).

(** The lines of the file at the first location that exists ([open] raising
    [FileNotFoundError] moves on to the next location). *)
Fixpoint first_found (locs : list (option (list string))) : option (list string) :=
  match locs with
  | [] => None
  | Some lines :: _ => Some lines
  | None :: locs' => first_found locs'
  end.

(** ["abs/" in entry_url] *)
Definition has_abs (s : string) : bool :=
  match String.index 0 "abs/"%string s with Some _ => true | None => false end.

(** [entry_url.split("abs/")[-1]]: the text after the last occurrence. *)
Fixpoint after_last_abs (fuel : nat) (s : string) : string :=
  match fuel with
  | O => s
  | S f =>
      match String.index 0 "abs/"%string s with
      | None => s
      | Some i => after_last_abs f (substring (i + 4) (String.length s - (i + 4)) s)
      end
  end.

Definition abs_id (url : string) : string := after_last_abs (String.length url) url.

Record stats := mkStats { saved_migrated : nat; viewed_migrated : nat; errors : nat }.

Definition add_saved (s : stats) : stats :=
  mkStats (S (saved_migrated s)) (viewed_migrated s) (errors s).
Definition add_viewed (s : stats) : stats :=
  mkStats (saved_migrated s) (S (viewed_migrated s)) (errors s).
Definition add_error (s : stats) : stats :=
  mkStats (saved_migrated s) (viewed_migrated s) (S (errors s)).

(** [try: <call> ... except Exception: ...] around a method call. *)
Definition mtry {A B} (m : method A) (k : A -> method B) (h : method B) : method B :=
  fun l d => match m l d with
             | (Ok x, d') => k x l d'
             | (Raise _, d') => h l d'
             end.

Fixpoint migrate_saved (now : Z) (ids : list string) (st : stats) : method stats :=
  match ids with
  | [] => mret st
  | aid :: ids' =>
      mtry (mark_article_saved now aid)
           (fun b => migrate_saved now ids' (if b then add_saved st else st))
           (migrate_saved now ids' (add_error st))
  end.

Fixpoint migrate_viewed (now : Z) (urls : list string) (st : stats) : method stats :=
  match urls with
  | [] => mret st
  | url :: urls' =>
      if has_abs url then
        mtry (mark_article_viewed now (abs_id url))
             (fun _ => migrate_viewed now urls' (add_viewed st))
             (migrate_viewed now urls' (add_error st))
      else migrate_viewed now urls' st
  end.

(** [migrate_from_text_files]: [saved_locs] and [viewed_locs] are the
    contents (or absence) of the two files at the locations tried, in order:
    the current directory, then the user data directory. *)
Definition migrate_from_text_files (now : Z) (saved_locs viewed_locs : list (option (list string)))
  : method stats :=
  st1 <-- match first_found saved_locs with
          | None => mret (mkStats 0 0 0)
          | Some lines => migrate_saved now (line_set lines) (mkStats 0 0 0)
          end ;;
  match first_found viewed_locs with
  | None => mret st1
  | Some lines => migrate_viewed now (line_set lines) st1
  end.

Definition status_rows_have_articles (d : db) : bool :=
  forallb (fun s => existsb (fun a => String.eqb (a_id a) (s_article_id s)) (articles d))
          (article_status d).

Definition has_article (d : db) (aid : string) : bool :=
  existsb (fun a => String.eqb (a_id a) aid) (articles d).

Inductive tag_op :=
| AddTag (name : string)
| AddArticleTag (aid name : string)
| RemoveArticleTag (aid name : string)
| CleanupOrphanTags.

Definition run_tag_op (now : Z) (op : tag_op) (d : db) : db :=
  match op with
  | AddTag name => snd (run (add_tag now name) d)
  | AddArticleTag aid name => snd (run (add_article_tag now aid name) d)
  | RemoveArticleTag aid name => snd (run (remove_article_tag aid name) d)
  | CleanupOrphanTags => snd (run cleanup_orphan_tags d)
  end.

Fixpoint run_tag_ops (now : Z) (ops : list tag_op) (d : db) : db :=
  match ops with
  | [] => d
  | op :: ops' => run_tag_ops now ops' (run_tag_op now op d)
  end.

Definition touches_only (aid : string) (d d' : db) : Prop :=
  articles d' = articles d /\ tags d' = tags d /\ article_tags d' = article_tags d /\
  tags_seq d' = tags_seq d /\
  forall aid', aid' <> aid -> status_row d' aid' = status_row d aid'.

Definition migrated_ids (locs : list (option (list string))) : list string :=
  match first_found locs with Some lines => line_set lines | None => [] end.

(** One article tagged "x" and "y". *)
Definition db_two_tags : db :=
  mkDb [art id1 0 ["cs.AI"%string]] [default_status id1] [mkTag 1 "x"%string 0; mkTag 2 "y"%string 0]
       [mkArticleTag id1 1 0; mkArticleTag id1 2 0] 2.

(** [db_tagged] after attaching a notes file to its article. *)
Definition db_with_note : db := snd (run (set_notes_path 1 id1 "notes.md"%string) db_tagged).

Definition two_files_saved : list (option (list string)) :=
  [None; Some [" 2401.00001v1 "%string; "2401.00001v1"%string; ""%string]].
Definition two_files_viewed : list (option (list string)) :=
  [Some ["http://arxiv.org/abs/2401.00002v1"%string; "junk"%string]].

Local Open Scope string_scope.

(** * Properties *)

Example like_ex1 : like_match "%ai%" "Deep AI models" = true.
Proof. reflexivity. Qed.

Example like_ex2 : like_match "%a_c%" "xxabd" = false.
Proof. reflexivity. Qed.

(** ** Frame lemmas *)

Lemma add_tag_shape : forall now name d,
  exists tid, add_tag now name false d = (Ok tid, snd (add_tag now name false d)) /\
              article_status (snd (add_tag now name false d)) = article_status d /\
              articles (snd (add_tag now name false d)) = articles d /\
              article_tags (snd (add_tag now name false d)) = article_tags d.
Proof.
  intros now name d. unfold add_tag, with_conn, catch_integrity, sbind, exec, query, sret,
    insert_tag. simpl.
  destruct (existsb _ _); simpl; eauto.
Qed.

Lemma find_filter_app_last : forall (A : Type) (f : A -> bool) (l : list A) (x : A),
  f x = true -> find f (filter (fun y => negb (f y)) l ++ [x]) = Some x.
Proof.
  intros A f l x Hx. induction l as [|y l IH]; simpl.
  - now rewrite Hx.
  - destruct (f y) eqn:Hy; simpl; [exact IH|]. now rewrite Hy.
Qed.

Lemma status_row_promote : forall aid now d d',
  promote_saved aid now d = Ok (tt, d') ->
  status_row d' aid = Some (mkStatus aid true (viewed_flag d aid) (Some now) (viewed_time d aid)).
Proof.
  intros aid now d d' H. unfold promote_saved, replace_status in H. inversion H; subst.
  unfold status_row, set_status, viewed_flag, viewed_time. simpl.
  apply find_filter_app_last. simpl. apply String.eqb_refl.
Qed.

Lemma find_some_filter_length : forall (A : Type) (f : A -> bool) (l : list A),
  find f l <> None -> Nat.ltb 0 (length (filter f l)) = true.
Proof.
  intros A f l H. induction l as [|x l IH]; simpl in *; [congruence|].
  destruct (f x); simpl; auto.
Qed.

Lemma find_none_map_id : forall (A : Type) (f : A -> bool) (g : A -> A) (l : list A),
  find f l = None -> map (fun x => if f x then g x else x) l = l.
Proof.
  intros A f g l H. induction l as [|x l IH]; simpl in *; auto.
  destruct (f x); [discriminate|]. now rewrite IH.
Qed.

Lemma promote_saved_promotes : forall aid now d d' d'',
  article_status d' = article_status d ->
  promote_saved aid now d' = Ok (tt, d'') -> promotes d d'' aid.
Proof.
  intros aid now d d' d'' Hs H. apply status_row_promote in H.
  unfold promotes, saved_flag, viewed_flag, viewed_time in *. rewrite H. simpl.
  unfold status_row. rewrite Hs. auto.
Qed.

(** [add_article_tag] never raises; when it returns [True] it has inserted
    the link and applied the promotion. *)
Lemma add_article_tag_outcome : forall now aid tag_name d,
  (exists b, fst (run (add_article_tag now aid tag_name) d) = Ok b) /\
  (fst (run (add_article_tag now aid tag_name) d) = Ok true ->
   promotes d (snd (run (add_article_tag now aid tag_name) d)) aid /\
   exists l, In l (article_tags (snd (run (add_article_tag now aid tag_name) d))) /\
             at_article_id l = aid).
Proof.
  intros now aid tag_name d.
  destruct (add_tag_shape now tag_name d) as [tid [Htag [Hst _]]].
  unfold run, add_article_tag, mbind. rewrite Htag.
  set (d1 := snd (add_tag now tag_name false d)) in *.
  unfold with_conn, catch_integrity, sbind, exec, sret. cbn -[promote_saved insert_article_tag].
  destruct (insert_article_tag aid tid now d1) as [[[] d2]|e] eqn:Hins;
    cbn -[promote_saved insert_article_tag].
  - destruct (promote_saved aid now d2) as [[[] d3]|e] eqn:Hp; cbn -[promote_saved].
    + split; [eauto|]. intros _.
      unfold insert_article_tag in Hins. destruct tid as [t|]; [|discriminate].
      destruct (existsb _ _); inversion Hins; subst. split.
      * eapply promote_saved_promotes; [|exact Hp]. exact Hst.
      * unfold promote_saved, replace_status in Hp. inversion Hp; subst.
        exists (mkArticleTag aid t now). simpl. split; [|reflexivity].
        apply in_or_app. right. left. reflexivity.
    + unfold promote_saved, replace_status in Hp. discriminate.
  - destruct e; cbn; [split; [eauto|discriminate]|].
    unfold insert_article_tag in Hins. destruct tid; [destruct (existsb _ _)|]; discriminate.
Qed.

(** ** Sample stores *)

(** C1 counterexample: re-adding tag "x" to an article that already carries
    it (and is unsaved) returns [False] and leaves [is_saved = false]. *)
Lemma add_existing_tag_keeps_unsaved :
  fst (run (add_article_tag 100 id1 "x") db_tagged) = Ok false /\
  saved_flag (snd (run (add_article_tag 100 id1 "x") db_tagged)) id1 = false.
Proof. split; reflexivity. Qed.

(** ** C9: marking viewed needs a status row *)

Lemma set_status_same : forall d, set_status d (article_status d) = d.
Proof. intros []; reflexivity. Qed.

(** C9.  When an article id has no [article_status] row,
    [mark_article_viewed] returns normally and leaves every table unchanged:
    no status row is created and the id still reads as unviewed. *)
Theorem mark_viewed_without_status_is_noop : forall now aid d,
  status_row d aid = None ->
  run (mark_article_viewed now aid) d = (Ok tt, d) /\ viewed_flag d aid = false /\
  status_row (snd (run (mark_article_viewed now aid) d)) aid = None.
Proof.
  intros now aid d H.
  assert (Hrun : run (mark_article_viewed now aid) d = (Ok tt, d)).
  { unfold run, mark_article_viewed, with_conn, sbind, exec, sret, update_status. cbn.
    unfold status_row in H.
    assert (Hm : map (fun s => if (s_article_id s =? aid)%string && negb (is_viewed s)
                               then mkStatus (s_article_id s) (is_saved s) true (saved_at s) (Some now)
                               else s) (article_status d) = article_status d).
    { induction (article_status d) as [|s l IH]; simpl in *; auto.
      destruct (s_article_id s =? aid)%string; [discriminate|]. simpl. now rewrite IH. }
    rewrite Hm, set_status_same. reflexivity. }
  split; [exact Hrun|]. split.
  - unfold viewed_flag. now rewrite H.
  - now rewrite Hrun.
Qed.

Lemma mark_viewed_without_status_is_noop_witness :
  status_row empty_db id1 = None /\
  run (mark_article_viewed 7 id1) empty_db = (Ok tt, empty_db).
Proof.
  split; [reflexivity|].
  apply (mark_viewed_without_status_is_noop 7 id1 empty_db). reflexivity.
Defined.

(** ** C10: an existing link is left alone *)

Lemma find_some_existsb : forall (A : Type) (f : A -> bool) (l : list A) (x : A),
  find f l = Some x -> existsb f l = true.
Proof.
  intros A f l x H. induction l as [|y l IH]; simpl in *; [discriminate|].
  destruct (f y); auto.
Qed.

Lemma add_article_tag_existing_link : forall now aid tag_name d t l,
  tag_row d tag_name = Some t ->
  In l (article_tags d) -> at_article_id l = aid -> at_tag_id l = t_id t ->
  run (add_article_tag now aid tag_name) d = (Ok false, d).
Proof.
  intros now aid tag_name d t l Ht Hl Ha Hi.
  unfold run, add_article_tag, mbind, add_tag, with_conn, catch_integrity, sbind, exec,
    query, sret, insert_tag.
  cbn -[insert_article_tag].
  rewrite (find_some_existsb _ _ _ _ Ht). cbn -[insert_article_tag].
  rewrite Ht. cbn -[insert_article_tag].
  unfold insert_article_tag.
  assert (He : existsb (fun l0 => String.eqb (at_article_id l0) aid && Z.eqb (at_tag_id l0) (t_id t))
                 (article_tags d) = true).
  { apply existsb_exists. exists l. split; [exact Hl|].
    rewrite Ha, Hi, String.eqb_refl, Z.eqb_refl. reflexivity. }
  rewrite He. reflexivity.
Qed.

(** C10.  When the link between the article and the tag named [tag_name]
    already exists, [add_article_tag] returns [False] and changes no table,
    in particular not [article_status]: nothing is re-saved. *)
Theorem readd_existing_tag_is_noop : forall now aid tag_name d t l,
  tag_row d tag_name = Some t ->
  In l (article_tags d) -> at_article_id l = aid -> at_tag_id l = t_id t ->
  run (add_article_tag now aid tag_name) d = (Ok false, d).
Proof.
  intros now aid tag_name d t l Ht Hl Ha Hi.
  exact (add_article_tag_existing_link now aid tag_name d t l Ht Hl Ha Hi).
Qed.

Lemma readd_existing_tag_is_noop_witness :
  run (add_article_tag 100 id1 "x") db_tagged = (Ok false, db_tagged).
Proof.
  apply (readd_existing_tag_is_noop 100 id1 "x" db_tagged (mkTag 1 "x" 0) (mkArticleTag id1 1 0));
    simpl; auto.
Defined.

(** ** C6: operations on an id that was never ingested *)

Lemma find_none_existsb : forall (A : Type) (f : A -> bool) (l : list A),
  find f l = None -> existsb f l = false.
Proof.
  intros A f l H. induction l as [|y l IH]; simpl in *; auto.
  destruct (f y); [discriminate|auto].
Qed.

Lemma find_app_last : forall (A : Type) (f : A -> bool) (l : list A) (x : A),
  find f l = None -> f x = true -> find f (l ++ [x]) = Some x.
Proof.
  intros A f l x H Hx. induction l as [|y l IH]; simpl in *.
  - now rewrite Hx.
  - destruct (f y); [discriminate|auto].
Qed.

Lemma find_map_update : forall (A : Type) (f : A -> bool) (g : A -> A) (l : list A) (x : A),
  (forall y, f y = true -> f (g y) = true) ->
  find f l = Some x -> find f (map (fun y => if f y then g y else y) l) = Some (g x).
Proof.
  intros A f g l x Hg H. induction l as [|y l IH]; simpl in *; [discriminate|].
  destruct (f y) eqn:Hy.
  - inversion H; subst. now rewrite (Hg x Hy).
  - rewrite Hy. auto.
Qed.

Lemma mark_article_saved_outcome : forall now aid d,
  (exists b, fst (run (mark_article_saved now aid) d) = Ok b) /\
  saved_flag (snd (run (mark_article_saved now aid) d)) aid = true.
Proof.
  intros now aid d.
  unfold run, mark_article_saved, with_conn, sbind, query, exec, sret. cbn -[insert_status update_status].
  destruct (status_row d aid) as [s|] eqn:Hs.
  - destruct (is_saved s) eqn:Hv; cbn.
    + split; [eauto|]. unfold saved_flag. now rewrite Hs.
    + split; [eauto|]. unfold saved_flag, status_row, set_status. cbn.
      unfold status_row in Hs.
      rewrite (find_map_update _ (fun s0 => String.eqb (s_article_id s0) aid)
                 (fun s0 => mkStatus (s_article_id s0) true (is_viewed s0) (Some now) (viewed_at s0))
                 _ s); auto.
  - unfold insert_status. cbn. unfold status_row in Hs.
    rewrite (find_none_existsb _ _ _ Hs). cbn. split; [eauto|].
    unfold saved_flag, status_row. cbn.
    rewrite (find_app_last _ _ _ _ Hs); [reflexivity|]. apply String.eqb_refl.
Qed.

(** C6 counterexample: on an empty store, tagging or saving id1 (never
    ingested) returns [True] and creates rows, instead of failing. *)
Lemma unknown_id_operations_succeed :
  article_row empty_db id1 = None /\
  fst (run (add_article_tag 100 id1 "x") empty_db) = Ok true /\
  snd (run (add_article_tag 100 id1 "x") empty_db) <> empty_db /\
  fst (run (mark_article_saved 100 id1) empty_db) = Ok true /\
  snd (run (mark_article_saved 100 id1) empty_db) <> empty_db.
Proof. repeat split; try reflexivity; vm_compute; discriminate. Qed.

(** ** C3: ingestion *)

(** C3 failing input: on [db_saved_before_ingest], both calls of
    [add_article(result1)] raise [IntegrityError] (the [article_status]
    insert hits the existing row and the [with] block rolls the article
    insert back), so the store ends with no article row for id1; the batch
    path [add_articles_batch], which catches the error, ends with exactly one
    row. *)
Theorem add_article_twice_after_early_save :
  run (add_article 100 result1) db_saved_before_ingest =
    (Raise IntegrityError, db_saved_before_ingest) /\
  run (add_article 200 result1) (snd (run (add_article 100 result1) db_saved_before_ingest)) =
    (Raise IntegrityError, db_saved_before_ingest) /\
  count_article_rows db_saved_before_ingest id1 = 0%nat /\
  count_article_rows
    (snd (run (add_articles_batch 200 [result1])
              (snd (run (add_articles_batch 100 [result1]) db_saved_before_ingest)))) id1 = 1%nat.
Proof. repeat split; reflexivity. Qed.

Lemma existsb_filter_length : forall (A : Type) (f : A -> bool) (l : list A),
  existsb f l = false <-> length (filter f l) = 0%nat.
Proof.
  intros A f l. induction l as [|y l IH]; simpl; [tauto|].
  destruct (f y); simpl; [split; discriminate|exact IH].
Qed.

(** Without a leftover status row, the second call is a no-op returning
    [False] and exactly one row with the id remains. *)
Lemma add_article_twice_clean : forall now1 now2 r d,
  status_row d (r_short_id r) = None ->
  (count_article_rows d (r_short_id r) <= 1)%nat ->
  let d1 := snd (run (add_article now1 r) d) in
  run (add_article now2 r) d1 = (Ok false, d1) /\
  count_article_rows d1 (r_short_id r) = 1%nat.
Proof.
  intros now1 now2 r d Hs Hc d1.
  unfold count_article_rows in *.
  unfold d1, run, add_article, article_exists, mbind, with_conn, query, sbind, exec, sret, mret.
  cbn -[insert_article insert_status].
  destruct (existsb (fun a => String.eqb (a_id a) (r_short_id r)) (articles d)) eqn:He.
  - cbn -[insert_article insert_status]. rewrite He. split; [reflexivity|].
    destruct (length (filter _ (articles d))) as [|[|k]] eqn:Hl; [|reflexivity|lia].
    apply existsb_filter_length in Hl. congruence.
  - unfold insert_article, insert_status, article_of_result. cbn.
    rewrite He. cbn. unfold status_row in Hs. rewrite (find_none_existsb _ _ _ Hs). cbn.
    rewrite existsb_app, He. cbn. rewrite String.eqb_refl. cbn. split; [reflexivity|].
    rewrite filter_app, length_app. apply existsb_filter_length in He.
    simpl. rewrite String.eqb_refl. simpl. lia.
Qed.

(** ** C5: the retention sweep *)

(** The sweep opens its connection, deletes from [article_tags],
    [article_status] and [articles] (taking the write lock), then calls
    [self.cleanup_orphan_tags()], which opens a second connection and tries
    to write: it fails with "database is locked", the exception leaves the
    outer [with] block, and the whole sweep is rolled back.  So the sweep
    returns 0 when nothing qualifies and otherwise raises, deleting
    nothing. *)
Theorem cleanup_old_unsaved_outcome : forall now retention_days d,
  run (cleanup_old_unsaved_articles now retention_days) d =
  match old_unsaved_ids d (now - retention_days * seconds_per_day) with
  | [] => (Ok 0%nat, d)
  | _ :: _ => (Raise OperationalError, d)
  end.
Proof.
  intros now retention_days d.
  unfold run, cleanup_old_unsaved_articles, with_conn, sbind, query, exec, sret, nested.
  cbn -[old_unsaved_ids delete_article_tags_in delete_status_in delete_articles_in].
  destruct (old_unsaved_ids d _) as [|x ids]; reflexivity.
Qed.

(** C5 failing input: with a 30-day window the article qualifies, yet the
    sweep raises and the article is still there. *)
Lemma cleanup_old_unsaved_failing_input :
  old_unsaved_ids db_old_unsaved (now0 - 30 * seconds_per_day) = [id1] /\
  run (cleanup_old_unsaved_articles now0 30) db_old_unsaved =
    (Raise OperationalError, db_old_unsaved) /\
  count_article_rows (snd (run (cleanup_old_unsaved_articles now0 30) db_old_unsaved)) id1 = 1%nat.
Proof. repeat split; reflexivity. Qed.

(** ** C8: orphan tags *)

Lemma existsb_find_some : forall (A : Type) (f : A -> bool) (l : list A),
  existsb f l = true -> exists x, find f l = Some x.
Proof.
  intros A f l H. induction l as [|y l IH]; simpl in *; [discriminate|].
  destruct (f y); eauto.
Qed.

Lemma add_tag_cases : forall now name d,
  (exists t, tag_row d name = Some t /\ add_tag now name false d = (Ok (Some (t_id t)), d)) \/
  (tag_row d name = None /\
   add_tag now name false d =
     (Ok (Some (fresh_tag_id d)),
      set_tags d (tags d ++ [mkTag (fresh_tag_id d) name now])%list (fresh_tag_id d))).
Proof.
  intros now name d.
  unfold add_tag, with_conn, catch_integrity, sbind, exec, query, sret, insert_tag.
  cbn. destruct (existsb (fun t => String.eqb (t_name t) name) (tags d)) eqn:He; cbn.
  - left. destruct (existsb_find_some _ _ _ He) as [t Ht]. exists t.
    unfold tag_row. rewrite Ht. split; reflexivity.
  - right. split; [|reflexivity]. unfold tag_row.
    destruct (find _ _) eqn:Hf; [|reflexivity].
    apply find_some_existsb in Hf. congruence.
Qed.

Lemma add_article_tag_tables : forall now aid name d tid d1,
  add_tag now name false d = (Ok (Some tid), d1) ->
  tags (snd (run (add_article_tag now aid name) d)) = tags d1 /\
  tags_seq (snd (run (add_article_tag now aid name) d)) = tags_seq d1 /\
  (article_tags (snd (run (add_article_tag now aid name) d)) = article_tags d1 \/
   article_tags (snd (run (add_article_tag now aid name) d)) =
     (article_tags d1 ++ [mkArticleTag aid tid now])%list).
Proof.
  intros now aid name d tid d1 H.
  unfold run, add_article_tag, mbind. rewrite H.
  unfold with_conn, catch_integrity, sbind, exec, sret, insert_article_tag, promote_saved,
    replace_status.
  cbn. destruct (existsb _ _); cbn; auto.
Qed.

Lemma remove_article_tag_tables : forall aid name d,
  tags (snd (run (remove_article_tag aid name) d)) = tags d /\
  tags_seq (snd (run (remove_article_tag aid name) d)) = tags_seq d /\
  article_tags (snd (run (remove_article_tag aid name) d)) =
    filter (fun l => negb (String.eqb (at_article_id l) aid &&
                           match tag_row d name with
                           | Some t => Z.eqb (at_tag_id l) (t_id t)
                           | None => false
                           end)) (article_tags d).
Proof. intros. repeat split; reflexivity. Qed.

Lemma cleanup_orphan_tags_result : forall d,
  run cleanup_orphan_tags d =
  (Ok (length (filter (fun t => negb (tag_is_linked d t)) (tags d))),
   set_tags d (filter (tag_is_linked d) (tags d)) (tags_seq d)).
Proof. reflexivity. Qed.

Lemma max_tag_id_ge : forall d t, In t (tags d) -> t_id t <= max_tag_id d.
Proof.
  intros [arts st tg lk sq] t H. unfold max_tag_id. simpl in *.
  induction tg as [|u tg IH]; simpl in *; [contradiction|].
  destruct H as [<-|H]; [lia|]. specialize (IH H). lia.
Qed.

Lemma tag_row_tags : forall d d' name, tags d' = tags d -> tag_row d' name = tag_row d name.
Proof. intros d d' name H. unfold tag_row. now rewrite H. Qed.

Lemma links_within_add_existing : forall now aid name d t S,
  tag_row d name = Some t -> links_within d name t S ->
  let d' := snd (run (add_article_tag now aid name) d) in
  tag_row d' name = Some t /\ links_within d' name t (aid :: S).
Proof.
  intros now aid name d t S Ht HJ d'.
  destruct (add_tag_cases now name d) as [[t0 [Ht0 Hadd]]|[Hn _]]; [|congruence].
  rewrite Ht in Ht0. inversion Ht0; subst t0.
  destruct (add_article_tag_tables now aid name d (t_id t) d Hadd) as [Htg [_ Hlk]].
  fold d' in Htg, Hlk.
  split; [rewrite (tag_row_tags d d' name Htg); exact Ht|].
  intros l t' Hl Ht' Hname Hid. rewrite Htg in Ht'.
  destruct Hlk as [Hlk|Hlk]; rewrite Hlk in Hl.
  - destruct (HJ l t' Hl Ht' Hname Hid) as [H1 H2]. split; [exact H1|right; exact H2].
  - apply in_app_or in Hl. destruct Hl as [Hl|[<-|[]]].
    + destruct (HJ l t' Hl Ht' Hname Hid) as [H1 H2]. split; [exact H1|right; exact H2].
    + split; [reflexivity|left; reflexivity].
Qed.

Lemma links_within_add_first : forall now aid name d,
  (forall l t, In l (article_tags d) -> In t (tags d) -> t_name t = name -> at_tag_id l <> t_id t) ->
  (forall l, In l (article_tags d) -> exists t, In t (tags d) /\ t_id t = at_tag_id l) ->
  let d' := snd (run (add_article_tag now aid name) d) in
  exists t, tag_row d' name = Some t /\ links_within d' name t [aid].
Proof.
  intros now aid name d H1 H2 d'.
  destruct (add_tag_cases now name d) as [[t [Ht Hadd]]|[Hn Hadd]].
  - exists t. apply (links_within_add_existing now aid name d t []); [exact Ht|].
    intros l t' Hl Ht' Hname Hid. exfalso. exact (H1 l t' Hl Ht' Hname Hid).
  - set (tn := mkTag (fresh_tag_id d) name now).
    destruct (add_article_tag_tables now aid name d _ _ Hadd) as [Htg [_ Hlk]].
    fold d' in Htg, Hlk. simpl in Htg, Hlk. exists tn. split.
    + unfold tag_row. rewrite Htg. apply find_app_last; [exact Hn|]. apply String.eqb_refl.
    + intros l t' Hl Ht' Hname Hid. rewrite Htg in Ht'.
      apply in_app_or in Ht'.
      assert (Hold : In l (article_tags d) -> False).
      { intros Hl0. destruct Ht' as [Ht'|[<-|[]]].
        - exact (H1 l t' Hl0 Ht' Hname Hid).
        - destruct (H2 l Hl0) as [t'' [Hin Heq]]. apply max_tag_id_ge in Hin.
          simpl in Hid. unfold fresh_tag_id in Hid. lia. }
      destruct Hlk as [Hlk|Hlk]; rewrite Hlk in Hl.
      * exfalso. exact (Hold Hl).
      * apply in_app_or in Hl. destruct Hl as [Hl|[<-|[]]]; [exfalso; exact (Hold Hl)|].
        split; [reflexivity|left; reflexivity].
Qed.

Lemma links_within_remove : forall aid name d t S,
  tag_row d name = Some t -> links_within d name t S ->
  let d' := snd (run (remove_article_tag aid name) d) in
  tag_row d' name = Some t /\
  links_within d' name t (filter (fun x => negb (String.eqb x aid)) S).
Proof.
  intros aid name d t S Ht HJ d'.
  destruct (remove_article_tag_tables aid name d) as [Htg [_ Hlk]]. fold d' in Htg, Hlk.
  split; [rewrite (tag_row_tags d d' name Htg); exact Ht|].
  intros l t' Hl Ht' Hname Hid. rewrite Htg in Ht'. rewrite Hlk, Ht in Hl.
  apply filter_In in Hl. destruct Hl as [Hl Hkeep].
  destruct (HJ l t' Hl Ht' Hname Hid) as [E1 E2]. split; [exact E1|].
  apply filter_In. split; [exact E2|].
  rewrite E1, Z.eqb_refl, andb_true_r in Hkeep. exact Hkeep.
Qed.

Lemma find_all_false : forall (A : Type) (f : A -> bool) (l : list A),
  (forall x, In x l -> f x = false) -> find f l = None.
Proof.
  intros A f l H. induction l as [|y l IH]; simpl; auto.
  rewrite (H y (or_introl eq_refl)). apply IH. intros x Hx. apply H. now right.
Qed.

(** C8.  [cleanup_orphan_tags] deletes exactly the tags with no
    [article_tags] row and returns their number; a linked tag is kept;
    [remove_article_tag] never deletes a tag; and starting from a store in
    which no link points to a tag named "x" (and every link points to an
    existing tag, as the code maintains), tagging two articles with "x",
    removing both links and running the cleanup leaves no tag "x". *)
Theorem orphan_cleanup_precision : forall now a b d,
  (forall l t, In l (article_tags d) -> In t (tags d) -> t_name t = "x" -> at_tag_id l <> t_id t) ->
  (forall l, In l (article_tags d) -> exists t, In t (tags d) /\ t_id t = at_tag_id l) ->
  tag_row (snd (run cleanup_orphan_tags (tag_two_then_untag now a b d))) "x" = None /\
  (forall d', run cleanup_orphan_tags d' =
              (Ok (length (filter (fun t => negb (tag_is_linked d' t)) (tags d'))),
               set_tags d' (filter (tag_is_linked d') (tags d')) (tags_seq d'))) /\
  (forall d' t, In t (tags d') -> tag_is_linked d' t = true ->
                In t (tags (snd (run cleanup_orphan_tags d')))) /\
  (forall aid name d', tags (snd (run (remove_article_tag aid name) d')) = tags d').
Proof.
  intros now a b d H1 H2. split; [|split; [|split]].
  - unfold tag_two_then_untag.
    destruct (links_within_add_first now a "x" d H1 H2) as [t [Ht1 J1]].
    destruct (links_within_add_existing now b "x" _ t [a] Ht1 J1) as [Ht2 J2].
    destruct (links_within_remove a "x" _ t _ Ht2 J2) as [Ht3 J3].
    destruct (links_within_remove b "x" _ t _ Ht3 J3) as [_ J4].
    set (d4 := snd (run (remove_article_tag b "x") _)) in *.
    assert (HS : filter (fun x => negb (String.eqb x b))
                   (filter (fun x => negb (String.eqb x a)) [b; a]) = []).
    { simpl. rewrite String.eqb_refl. destruct (String.eqb b a); simpl;
        [reflexivity|rewrite String.eqb_refl; reflexivity]. }
    rewrite HS in J4.
    rewrite cleanup_orphan_tags_result. unfold tag_row. simpl.
    apply find_all_false. intros t' Hin. apply filter_In in Hin. destruct Hin as [Hin Hlinked].
    destruct (String.eqb (t_name t') "x") eqn:Hn; [|reflexivity].
    apply String.eqb_eq in Hn. exfalso.
    unfold tag_is_linked in Hlinked. apply existsb_exists in Hlinked.
    destruct Hlinked as [l [Hl Hid]]. apply Z.eqb_eq in Hid.
    destruct (J4 l t' Hl Hin Hn Hid) as [_ []].
  - intros d'. apply cleanup_orphan_tags_result.
  - intros d' t Hin Hl. rewrite cleanup_orphan_tags_result. simpl.
    apply filter_In. split; assumption.
  - intros aid name d'. apply (proj1 (remove_article_tag_tables aid name d')).
Qed.

Lemma orphan_cleanup_precision_witness :
  tag_row (snd (run cleanup_orphan_tags (tag_two_then_untag 100 id1 id2 db_untagged))) "x" = None.
Proof.
  apply (orphan_cleanup_precision 100 id1 id2 db_untagged); simpl; intros; contradiction.
Defined.

(** ** C2: the feed-retention rule *)

Lemma in_select_rows : forall c p d r,
  In r (select_rows c p d) <->
  exists a so ht, In a (articles d) /\ In so (left_join_status d a) /\ p a so = true /\
                  In ht (left_join_tagged d a) /\ r = mk_row c a so ht.
Proof.
  intros c p d r. unfold select_rows. rewrite in_flat_map. split.
  - intros [a [Ha Hr]]. rewrite in_flat_map in Hr. destruct Hr as [so [Hso Hr]].
    destruct (p a so) eqn:Hp; [|contradiction].
    apply in_map_iff in Hr. destruct Hr as [ht [<- Hht]].
    exists a, so, ht. auto.
  - intros [a [so [ht [Ha [Hso [Hp [Hht ->]]]]]]]. exists a. split; [exact Ha|].
    apply in_flat_map. exists so. split; [exact Hso|]. rewrite Hp.
    apply in_map. exact Hht.
Qed.

Lemma left_join_tagged_nonempty : forall d a, exists ht, In ht (left_join_tagged d a).
Proof.
  intros d a. unfold left_join_tagged.
  destruct (filter _ _) as [|x l]; simpl; eauto.
Qed.

Lemma filter_key_none : forall (l : list status) x,
  find (fun t => String.eqb (s_article_id t) x) l = None ->
  filter (fun t => String.eqb (s_article_id t) x) l = [].
Proof.
  intros l x H. induction l as [|y l IH]; simpl in *; auto.
  destruct (String.eqb (s_article_id y) x); [discriminate|auto].
Qed.

Lemma filter_key_nodup : forall (l : list status) x s,
  NoDup (map s_article_id l) ->
  find (fun t => String.eqb (s_article_id t) x) l = Some s ->
  filter (fun t => String.eqb (s_article_id t) x) l = [s].
Proof.
  intros l x s Hnd H. induction l as [|y l IH]; simpl in *; [discriminate|].
  inversion Hnd as [|? ? Hnotin Hnd']; subst.
  destruct (String.eqb (s_article_id y) x) eqn:Hy.
  - inversion H; subst. f_equal. apply String.eqb_eq in Hy.
    apply filter_key_none. apply find_all_false. intros t Ht. destruct (String.eqb (s_article_id t) x) eqn:Ht'; [|reflexivity].
    exfalso. apply Hnotin. apply String.eqb_eq in Ht'. rewrite Hy, <- Ht'. now apply in_map.
  - auto.
Qed.

Lemma left_join_status_row : forall d a,
  NoDup (map s_article_id (article_status d)) ->
  left_join_status d a = [status_row d (a_id a)].
Proof.
  intros d a Hnd. unfold left_join_status, status_row.
  destruct (find _ _) as [s|] eqn:Hf.
  - rewrite (filter_key_nodup _ _ _ Hnd Hf). reflexivity.
  - rewrite (filter_key_none _ _ Hf). reflexivity.
Qed.

Lemma unviewed_status_row : forall d aid,
  unviewed (status_row d aid) = negb (viewed_flag d aid).
Proof. intros d aid. unfold viewed_flag. destruct (status_row d aid); reflexivity. Qed.

(** C2.  With a retention window of [R] days, an article of the store has a
    row in the listing of [get_all_articles] if and only if it was published
    at or after [now - R] days or it is unviewed (a missing status row
    counting as unviewed).  The status table has at most one row per article
    (its PRIMARY KEY). *)
Theorem feed_retention_rule : forall d R now out a,
  NoDup (map s_article_id (article_status d)) ->
  get_all_articles d (Some R) now out -> In a (articles d) ->
  ((exists r, In r out /\ row_article r = a) <->
   (now - R * seconds_per_day <= published_date a \/ viewed_flag d (a_id a) = false)).
Proof.
  intros d R now out a Hnd [Hperm _] Ha. split.
  - intros [r [Hr Hra]]. apply (Permutation_in r (Permutation_sym Hperm)) in Hr.
    apply in_select_rows in Hr.
    destruct Hr as [a' [so [ht [Ha' [Hso [Hp [_ ->]]]]]]]. simpl in Hra. subst a'.
    rewrite left_join_status_row in Hso by exact Hnd. destruct Hso as [<-|[]].
    unfold feed_retention_filter in Hp. rewrite unviewed_status_row in Hp.
    apply orb_true_iff in Hp. destruct Hp as [Hp|Hp].
    + left. apply Z.leb_le. exact Hp.
    + right. apply negb_true_iff. exact Hp.
  - intros H. destruct (left_join_tagged_nonempty d a) as [ht Hht].
    exists (mk_row true a (status_row d (a_id a)) ht). split; [|reflexivity].
    apply (Permutation_in _ Hperm). apply in_select_rows.
    exists a, (status_row d (a_id a)), ht. repeat split; auto.
    + rewrite left_join_status_row by exact Hnd. left. reflexivity.
    + unfold feed_retention_filter. rewrite unviewed_status_row. apply orb_true_iff.
      destruct H as [H|H]; [left; apply Z.leb_le; exact H|right; rewrite H; reflexivity].
Qed.

(** With [R = 0], the article published 1000 days ago is listed while
    unviewed and not listed once viewed. *)
Lemma feed_retention_rule_witness :
  (exists r, In r (select_rows true (feed_retention_filter (Some 0) now0) db_old_unviewed) /\
             row_article r = old_article) /\
  ~ (exists r, In r [] /\ row_article r = old_article).
Proof.
  assert (N1 : NoDup (map s_article_id (article_status db_old_unviewed))).
  { simpl. constructor; [simpl; tauto|constructor]. }
  assert (N2 : NoDup (map s_article_id (article_status db_old_viewed))).
  { simpl. constructor; [simpl; tauto|constructor]. }
  assert (G1 : get_all_articles db_old_unviewed (Some 0) now0
                 (select_rows true (feed_retention_filter (Some 0) now0) db_old_unviewed)).
  { split; [apply Permutation_refl|]. vm_compute. repeat constructor. }
  assert (G2 : get_all_articles db_old_viewed (Some 0) now0 []).
  { split; [vm_compute; apply Permutation_refl|constructor]. }
  assert (I1 : In old_article (articles db_old_unviewed)) by (simpl; left; reflexivity).
  assert (I2 : In old_article (articles db_old_viewed)) by (simpl; left; reflexivity).
  split.
  - apply (proj2 (feed_retention_rule db_old_unviewed 0 now0 _ old_article N1 G1 I1)).
    right. reflexivity.
  - intros H. apply (proj1 (feed_retention_rule db_old_viewed 0 now0 [] old_article N2 G2 I2)) in H.
    destruct H as [H|H]; [vm_compute in H; apply H; reflexivity|discriminate].
Defined.

(** ** C4: counters against listings *)

Lemma perm_filter : forall (A : Type) (f : A -> bool) (l l' : list A),
  Permutation l l' -> Permutation (filter f l) (filter f l').
Proof.
  intros A f l l' H. induction H; simpl.
  - constructor.
  - destruct (f x); [constructor|]; assumption.
  - destruct (f x), (f y); try constructor; apply Permutation_refl.
  - eapply Permutation_trans; eassumption.
Qed.

Lemma filter_flat_map : forall (A B : Type) (f : B -> bool) (g : A -> list B) (l : list A),
  filter f (flat_map g l) = flat_map (fun x => filter f (g x)) l.
Proof.
  intros A B f g l. induction l as [|x l IH]; simpl; auto.
  rewrite filter_app, IH. reflexivity.
Qed.

Lemma length_flat_map : forall (A B : Type) (g : A -> list B) (l : list A),
  length (flat_map g l) = fold_right (fun x n => (length (g x) + n)%nat) 0%nat l.
Proof.
  intros A B g l. induction l as [|x l IH]; simpl; auto.
  rewrite length_app, IH. reflexivity.
Qed.

Lemma filter_eqb_nodup_length : forall (x : string) (l : list string),
  NoDup l -> (length (filter (String.eqb x) l) <= 1)%nat.
Proof.
  intros x l Hnd. induction Hnd as [|y l Hnotin Hnd IH]; simpl; [lia|].
  destruct (String.eqb x y) eqn:Hxy; simpl; [|exact IH].
  apply String.eqb_eq in Hxy. subst y.
  assert (Hz : filter (String.eqb x) l = []).
  { destruct (filter (String.eqb x) l) as [|z r] eqn:Hf; [reflexivity|].
    exfalso. assert (Hz : In z (filter (String.eqb x) l)) by (rewrite Hf; left; reflexivity).
    apply filter_In in Hz. destruct Hz as [Hz Heq]. apply String.eqb_eq in Heq.
    subst z. contradiction. }
  rewrite Hz. simpl. lia.
Qed.

(** The DISTINCT subquery joins exactly one row to each article. *)
Lemma left_join_tagged_length : forall d a, length (left_join_tagged d a) = 1%nat.
Proof.
  intros d a. unfold left_join_tagged.
  pose proof (filter_eqb_nodup_length (a_id a) (distinct_tagged d)
                (NoDup_nodup string_dec _)) as H.
  destruct (filter (String.eqb (a_id a)) (distinct_tagged d)) as [|x [|y r]];
    simpl in *; auto; lia.
Qed.

Lemma select_rows_length : forall c p d, length (select_rows c p d) = count_rows p d.
Proof.
  intros c p d. unfold select_rows, count_rows, joined.
  induction (articles d) as [|a l IH]; simpl; auto.
  rewrite length_app, filter_app, length_app, IH. f_equal.
  induction (left_join_status d a) as [|so r IHr]; simpl; auto.
  destruct (p a so); simpl; [|exact IHr].
  rewrite length_app, length_map, left_join_tagged_length, IHr. reflexivity.
Qed.

Lemma count_rows_ext : forall p q d,
  (forall a so, p a so = q a so) -> count_rows p d = count_rows q d.
Proof.
  intros p q d H. unfold count_rows. f_equal. apply filter_ext. intros [a so]. apply H.
Qed.

Lemma filter_unread_select_rows : forall p d,
  filter unread_row (select_rows false p d) = select_rows false (fun a so => p a so && unviewed so) d.
Proof.
  intros p d. unfold select_rows. rewrite filter_flat_map. apply flat_map_ext. intros a.
  rewrite filter_flat_map. apply flat_map_ext. intros so.
  destruct (p a so); simpl; [|reflexivity].
  destruct (unviewed so) eqn:Hu.
  - induction (left_join_tagged d a) as [|ht r IH]; simpl; auto.
    unfold unread_row at 1. simpl. destruct so as [s|]; simpl in *; rewrite ?Hu, IH; reflexivity.
  - induction (left_join_tagged d a) as [|ht r IH]; simpl; auto.
    unfold unread_row at 1. simpl. destruct so as [s|]; simpl in *; [rewrite Hu; exact IH|discriminate].
Qed.



(** ** C7: ordering of the listings *)

Section SortDesc.
Variable K : Type.
Variable le : K -> K -> Prop.
Variable leb : K -> K -> bool.
Hypothesis leb_spec : forall x y, leb x y = true <-> le x y.
Hypothesis leb_total : forall x y, leb x y = true \/ leb y x = true.
Variable key : row -> K.

Let R (r1 r2 : row) : Prop := le (key r2) (key r1).
Local Abbreviation ins := (insert_desc leb key).
Local Abbreviation srt := (sort_desc leb key).

Lemma insert_desc_perm : forall r l, Permutation (r :: l) (ins r l).
Proof.
  intros r l. induction l as [|x l IH]; simpl; [apply Permutation_refl|].
  destruct (leb (key x) (key r)); [apply Permutation_refl|].
  eapply Permutation_trans; [apply perm_swap|]. constructor. exact IH.
Qed.

Lemma sort_desc_perm : forall l, Permutation l (srt l).
Proof.
  intros l. induction l as [|x l IH]; simpl; [constructor|].
  eapply Permutation_trans; [|apply insert_desc_perm]. constructor. exact IH.
Qed.

Lemma insert_desc_hd : forall x r l,
  HdRel R x l -> R x r -> HdRel R x (ins r l).
Proof.
  intros x r l Hh Hr. destruct l as [|y l]; simpl; [constructor; exact Hr|].
  destruct (leb (key y) (key r)); constructor; [exact Hr|].
  inversion Hh; assumption.
Qed.

Lemma insert_desc_sorted : forall r l, Sorted R l -> Sorted R (ins r l).
Proof.
  intros r l H. induction H as [|x l Hs IH Hh]; simpl; [repeat constructor|].
  destruct (leb (key x) (key r)) eqn:Hxr.
  - constructor; [constructor; assumption|]. constructor. apply leb_spec. exact Hxr.
  - constructor; [exact IH|]. apply insert_desc_hd; [exact Hh|].
    unfold R. apply leb_spec. destruct (leb_total (key x) (key r)); congruence.
Qed.

Lemma sort_desc_sorted : forall l, Sorted R (srt l).
Proof.
  intros l. induction l as [|x l IH]; simpl; [constructor|]. apply insert_desc_sorted. exact IH.
Qed.

(** Every selection has an admissible ORDER BY ... DESC result. *)
Lemma ordered_desc_exists : forall rows, exists out, ordered_desc le key rows out.
Proof.
  intros rows. exists (srt rows). split; [apply sort_desc_perm|apply sort_desc_sorted].
Qed.
End SortDesc.

Lemma opt_leb_spec : forall x y, opt_leb x y = true <-> opt_le x y.
Proof.
  intros [a|] [b|]; simpl; split; intros H; auto; try discriminate; try contradiction.
  - apply Z.leb_le. exact H.
  - apply Z.leb_le. exact H.
Qed.

Lemma zleb_total : forall x y, Z.leb x y = true \/ Z.leb y x = true.
Proof. intros x y. destruct (Z.leb_spec x y); [left; reflexivity|right; apply Z.leb_le; lia]. Qed.

Lemma opt_leb_total : forall x y, opt_leb x y = true \/ opt_leb y x = true.
Proof.
  intros [a|] [b|]; simpl; auto. apply zleb_total.
Qed.

Lemma published_order_exists : forall rows, exists out, ordered_desc Z.le by_published rows out.
Proof.
  apply (ordered_desc_exists Z Z.le Z.leb (fun x y => Z.leb_le x y) zleb_total).
Qed.

Lemma saved_order_exists : forall rows, exists out, ordered_desc opt_le row_saved_at rows out.
Proof. apply (ordered_desc_exists _ opt_le opt_leb opt_leb_spec opt_leb_total). Qed.

(** An ORDER BY ... DESC result is fixed up to rows with equal keys: the
    sequence of keys is determined, and two adjacent rows with equal keys
    may come in either order. *)
Section SortedKeys.
Variable K : Type.
Variable le : K -> K -> Prop.
Hypothesis le_antisym : forall x y, le x y -> le y x -> x = y.
Hypothesis le_trans : forall x y z, le x y -> le y z -> le x z.
Variable key : row -> K.

Lemma sorted_map_key : forall l,
  Sorted (fun r1 r2 => le (key r2) (key r1)) l <-> Sorted (fun k1 k2 => le k2 k1) (map key l).
Proof.
  intros l. induction l as [|x l IH]; simpl; [split; constructor|].
  split; intros H; inversion H as [|? ? Hs Hh]; subst; constructor.
  - apply IH. exact Hs.
  - destruct l as [|y l]; simpl; constructor. inversion Hh; assumption.
  - apply IH. exact Hs.
  - destruct l as [|y l]; constructor. simpl in Hh. inversion Hh; assumption.
Qed.

Lemma strongly_sorted_perm_eq : forall l1 l2,
  StronglySorted (fun k1 k2 => le k2 k1) l1 -> StronglySorted (fun k1 k2 => le k2 k1) l2 ->
  Permutation l1 l2 -> l1 = l2.
Proof.
  intros l1. induction l1 as [|x l1 IH]; intros l2 H1 H2 Hp.
  - symmetry. apply Permutation_nil. exact Hp.
  - destruct l2 as [|y l2].
    + apply Permutation_sym, Permutation_nil in Hp. discriminate.
    + apply StronglySorted_inv in H1 as [H1 F1]. apply StronglySorted_inv in H2 as [H2 F2].
      assert (Hxy : x = y).
      { assert (Hx : In x (y :: l2)) by (eapply Permutation_in; [exact Hp|left; reflexivity]).
        destruct Hx as [->|Hx]; [reflexivity|].
        assert (Hy : In y (x :: l1))
          by (eapply Permutation_in; [apply Permutation_sym; exact Hp|left; reflexivity]).
        destruct Hy as [->|Hy]; [reflexivity|].
        rewrite Forall_forall in F1, F2.
        apply le_antisym; [apply (F2 x Hx)|apply (F1 y Hy)]. }
      subst y. f_equal. apply IH; auto. eapply Permutation_cons_inv. exact Hp.
Qed.

Lemma ordered_desc_keys : forall rows o1 o2,
  ordered_desc le key rows o1 -> ordered_desc le key rows o2 -> map key o1 = map key o2.
Proof.
  intros rows o1 o2 [P1 S1] [P2 S2].
  apply strongly_sorted_perm_eq.
  - apply Sorted_StronglySorted; [intros a b c Hab Hbc; exact (le_trans c b a Hbc Hab)|].
    apply sorted_map_key. exact S1.
  - apply Sorted_StronglySorted; [intros a b c Hab Hbc; exact (le_trans c b a Hbc Hab)|].
    apply sorted_map_key. exact S2.
  - apply Permutation_map. eapply Permutation_trans; [apply Permutation_sym; exact P1|exact P2].
Qed.

Lemma ordered_desc_swap : forall rows l1 r1 r2 l2,
  ordered_desc le key rows (l1 ++ r1 :: r2 :: l2) -> key r1 = key r2 ->
  ordered_desc le key rows (l1 ++ r2 :: r1 :: l2).
Proof.
  intros rows l1 r1 r2 l2 [P S] Hk. split.
  - eapply Permutation_trans; [exact P|]. apply Permutation_app_head. apply perm_swap.
  - apply sorted_map_key. apply sorted_map_key in S. rewrite map_app in *. simpl in *.
    rewrite Hk in *. exact S.
Qed.
End SortedKeys.

Lemma opt_le_antisym : forall x y, opt_le x y -> opt_le y x -> x = y.
Proof. intros [a|] [b|]; simpl; intros H1 H2; try contradiction; auto. f_equal. lia. Qed.

Lemma opt_le_trans : forall x y z, opt_le x y -> opt_le y z -> opt_le x z.
Proof. intros [a|] [b|] [c|]; simpl; intros H1 H2; auto; try contradiction. lia. Qed.

Lemma listing_result_rows : forall d k, exists rows,
  forall out, listing_result d k out <-> ordered_desc Z.le by_published rows out.
Proof.
  intros d [r n|c r n|t| |q r n|q [|c cats] r n]; eexists; intros out; simpl; apply iff_refl.
Qed.

(** C7 counterexample: the saved (library) listing is ordered by [saved_at],
    so every result it may return lists id1 (published at 100) before id2
    (published at 200); and two articles with the same [published_date] may
    be listed by [get_all_articles] in either order, so ties are not broken
    by insertion order or id. *)
Lemma listing_order_not_as_specified :
  (exists out, get_saved_articles db_saved_two out) /\
  (forall out, get_saved_articles db_saved_two out ->
    ~ Sorted (fun r1 r2 => by_published r2 <= by_published r1) out) /\
  (exists o1 o2, get_all_articles db_tied None 0 o1 /\ get_all_articles db_tied None 0 o2 /\
     map (fun r => a_id (row_article r)) o1 = [id1; id2] /\
     map (fun r => a_id (row_article r)) o2 = [id2; id1]).
Proof.
  split; [|split].
  - exists (select_saved db_saved_two). split; [apply Permutation_refl|].
    cbv -[Z.le]. repeat constructor. lia.
  - intros out [Hp Hs] Hpub. vm_compute in Hp.
    apply Permutation_length_2_inv in Hp. destruct Hp as [->| ->].
    + inversion Hpub as [|? ? _ Hh]; subst. inversion Hh; subst. cbv -[Z.le] in *. lia.
    + inversion Hs as [|? ? _ Hh]; subst. inversion Hh; subst. cbv -[Z.le] in *. lia.
  - exists (select_rows true (feed_retention_filter None 0) db_tied),
      (rev (select_rows true (feed_retention_filter None 0) db_tied)).
    split; [|split; [|split]].
    + split; [apply Permutation_refl|]. cbv -[Z.le]. repeat constructor. lia.
    + split; [apply Permutation_rev|]. cbv -[Z.le]. repeat constructor. lia.
    + reflexivity.
    + reflexivity.
Qed.

(** C7 (amended).  The listings [get_all_articles], [get_articles_by_category],
    [get_articles_by_tag], [get_unread_articles], [search_articles] and
    [search_articles_in_categories] return their rows sorted by
    [published_date], most recent first; [get_saved_articles] returns its rows
    sorted by [saved_at], most recently saved first (NULL last).  Each listing
    has such a result; any two results of a listing carry the same sequence
    of sort keys; and the query has no tie-breaking key: exchanging two
    adjacent rows with equal keys in a result gives another result. *)
Theorem listings_ordering : forall d k,
  (exists out, listing_result d k out) /\
  (forall out, listing_result d k out ->
     Sorted (fun r1 r2 => by_published r2 <= by_published r1) out) /\
  (forall o1 o2, listing_result d k o1 -> listing_result d k o2 ->
     map by_published o1 = map by_published o2) /\
  (forall l1 r1 r2 l2, listing_result d k (l1 ++ r1 :: r2 :: l2) ->
     by_published r1 = by_published r2 -> listing_result d k (l1 ++ r2 :: r1 :: l2)) /\
  (exists out, get_saved_articles d out) /\
  (forall out, get_saved_articles d out ->
     Sorted (fun r1 r2 => opt_le (row_saved_at r2) (row_saved_at r1)) out) /\
  (forall o1 o2, get_saved_articles d o1 -> get_saved_articles d o2 ->
     map row_saved_at o1 = map row_saved_at o2) /\
  (forall l1 r1 r2 l2, get_saved_articles d (l1 ++ r1 :: r2 :: l2) ->
     row_saved_at r1 = row_saved_at r2 -> get_saved_articles d (l1 ++ r2 :: r1 :: l2)).
Proof.
  intros d k. destruct (listing_result_rows d k) as [rows Hr].
  split; [|split; [|split; [|split; [|split; [|split; [|split]]]]]].
  - destruct (published_order_exists rows) as [out Ho]. exists out. apply Hr. exact Ho.
  - intros out H. apply Hr in H. exact (proj2 H).
  - intros o1 o2 H1 H2. apply Hr in H1, H2.
    exact (ordered_desc_keys Z Z.le Z.le_antisymm Z.le_trans by_published rows o1 o2 H1 H2).
  - intros l1 r1 r2 l2 H Hk. apply Hr. apply Hr in H.
    exact (ordered_desc_swap Z Z.le by_published rows l1 r1 r2 l2 H Hk).
  - apply saved_order_exists.
  - intros out [_ H]. exact H.
  - intros o1 o2 H1 H2.
    exact (ordered_desc_keys _ opt_le opt_le_antisym opt_le_trans row_saved_at _ o1 o2 H1 H2).
  - intros l1 r1 r2 l2 H Hk. exact (ordered_desc_swap _ opt_le row_saved_at _ l1 r1 r2 l2 H Hk).
Qed.

Lemma listings_ordering_witness :
  Sorted (fun r1 r2 => opt_le (row_saved_at r2) (row_saved_at r1)) (select_saved db_saved_two) /\
  get_all_articles db_tied None 0
    [mk_row true (art id2 100 []) (Some (default_status id2)) false;
     mk_row true (art id1 100 []) (Some (default_status id1)) false].
Proof.
  split.
  - apply (proj1 (proj2 (proj2 (proj2 (proj2 (proj2
      (listings_ordering db_saved_two (all_articles None 0)))))))).
    split; [apply Permutation_refl|]. cbv -[Z.le]. repeat constructor. lia.
  - apply (proj1 (proj2 (proj2 (proj2 (listings_ordering db_tied (all_articles None 0)))))
             [] (mk_row true (art id1 100 []) (Some (default_status id1)) false)
             (mk_row true (art id2 100 []) (Some (default_status id2)) false) []).
    + split; [vm_compute; apply Permutation_refl|]. cbv -[Z.le]. repeat constructor. lia.
    + reflexivity.
Defined.

(** ** Further methods: properties *)

Local Close Scope string_scope.

Lemma batch_loop_ingests : forall now rs k st,
  exists n st' added,
    batch_loop now rs k false st = (Ok n, st') /\ committed st' = committed st /\
    articles (working st') = articles (working st) ++ added /\
    (forall r, In r rs -> has_article (working st') (r_short_id r) = true) /\
    (k <= n)%nat.
Proof.
  intros now rs. induction rs as [|r rs IH]; intros k st.
  - exists k, st, []. simpl. rewrite app_nil_r. repeat split; auto; intros r [].
  - cbn [batch_loop]. unfold sbind at 1, query.
    destruct (existsb _ (articles (working st))) eqn:E.
    + destruct (IH k st) as (n & st' & added & H1 & H2 & H3 & H4 & H5).
      exists n, st', added. repeat split; auto.
      intros r' [<-|Hr]; [|auto].
      unfold has_article. rewrite H3, existsb_app, E. reflexivity.
    + unfold catch_integrity, sbind, exec, sret, insert_article. simpl (a_id _).
      rewrite E. cbn [working committed dirty].
      set (w1 := set_articles (working st) (articles (working st) ++ [article_of_result r now])).
      destruct (insert_status (default_status (r_short_id r)) w1) as [[[] w2]|e] eqn:Es.
      * destruct (IH (S k) (mkCState (committed st) w2 true)) as (n & st' & added & H1 & H2 & H3 & H4 & H5).
        assert (Hw2 : articles w2 = articles (working st) ++ [article_of_result r now]).
        { unfold insert_status in Es. destruct (existsb _ (article_status w1)); inversion Es; reflexivity. }
        exists n, st', ([article_of_result r now] ++ added). simpl in H1, H2, H3.
        rewrite Hw2 in H3. rewrite app_assoc.
        split; [exact H1|split; [exact H2|split; [exact H3|split; [|lia]]]].
        intros r' [<-|Hr]; [|auto]. unfold has_article. rewrite H3, !existsb_app. simpl.
        rewrite String.eqb_refl, !orb_true_r. reflexivity.
      * destruct e.
        -- destruct (IH k (mkCState (committed st) w1 true)) as (n & st' & added & H1 & H2 & H3 & H4 & H5).
           exists n, st', ([article_of_result r now] ++ added). simpl in H1, H2, H3.
           rewrite app_assoc. repeat split; auto.
           intros r' [<-|Hr]; [|auto]. unfold has_article. rewrite H3, !existsb_app. simpl.
           rewrite String.eqb_refl, !orb_true_r. reflexivity.
        -- unfold insert_status in Es. destruct (existsb _ (article_status w1)); discriminate.
Qed.

Lemma batch_loop_present_noop : forall now rs k st,
  (forall r, In r rs -> has_article (working st) (r_short_id r) = true) ->
  batch_loop now rs k false st = (Ok k, st).
Proof.
  intros now rs. induction rs as [|r rs IH]; intros k st H; simpl; [reflexivity|].
  unfold sbind at 1, query. unfold has_article in H. rewrite (H r (or_introl eq_refl)).
  apply IH. intros r' Hr. apply H. now right.
Qed.

Lemma batch_loop_count : forall now rs k st,
  status_rows_have_articles (working st) = true ->
  exists n st',
    batch_loop now rs k false st = (Ok n, st') /\
    status_rows_have_articles (working st') = true /\
    (n + length (articles (working st)) = k + length (articles (working st')))%nat.
Proof.
  intros now rs. induction rs as [|r rs IH]; intros k st Hinv.
  - exists k, st. simpl. auto.
  - cbn [batch_loop]. unfold sbind at 1, query.
    destruct (existsb _ (articles (working st))) eqn:E.
    + apply IH. exact Hinv.
    + unfold catch_integrity, sbind, exec, sret, insert_article. simpl (a_id _).
      rewrite E. cbn [working committed dirty].
      set (w1 := set_articles (working st) (articles (working st) ++ [article_of_result r now])).
      assert (Hs : existsb (fun t => String.eqb (s_article_id t) (r_short_id r)) (article_status w1) = false).
      { simpl. apply Bool.not_true_iff_false. intros Hex.
        apply existsb_exists in Hex. destruct Hex as [s [Hin Heq]].
        apply String.eqb_eq in Heq.
        unfold status_rows_have_articles in Hinv. rewrite forallb_forall in Hinv.
        specialize (Hinv s Hin). rewrite Heq in Hinv. congruence. }
      unfold insert_status. simpl (s_article_id _). rewrite Hs.
      set (w2 := set_status w1 (article_status w1 ++ [default_status (r_short_id r)])).
      assert (Hinv2 : status_rows_have_articles w2 = true).
      { unfold status_rows_have_articles in *. rewrite forallb_forall in *.
        intros s Hin. simpl in Hin. apply in_app_or in Hin. simpl.
        rewrite existsb_app. apply orb_true_iff.
        destruct Hin as [Hin|[<-|[]]].
        - left. apply Hinv. exact Hin.
        - right. simpl. rewrite String.eqb_refl. reflexivity. }
      destruct (IH (S k) (mkCState (committed st) w2 true) Hinv2) as (n & st' & H1 & H2 & H3).
      exists n, st'. simpl in H3. rewrite length_app in H3. simpl in H3.
      repeat split; auto. lia.
Qed.

(** X1. add_articles_batch never raises (an IntegrityError on an insert is
    caught per result): it returns a count, keeps every existing article row
    and only appends new ones, leaves an article row for every result of the
    batch, and a second call with the same results returns 0 and changes
    nothing. *)
Theorem add_articles_batch_ingests : forall now now' rs d,
  exists n d' added,
    run (add_articles_batch now rs) d = (Ok n, d') /\
    articles d' = articles d ++ added /\
    (forall r, In r rs -> has_article d' (r_short_id r) = true) /\
    run (add_articles_batch now' rs) d' = (Ok 0%nat, d').
Proof.
  intros now now' rs d.
  destruct (batch_loop_ingests now rs 0 (mkCState d d false)) as (n & st' & added & H1 & _ & H3 & H4 & _).
  exists n, (working st'), added.
  unfold run, add_articles_batch, with_conn. rewrite H1. split; [reflexivity|].
  split; [exact H3|]. split; [exact H4|].
  rewrite batch_loop_present_noop; [reflexivity|exact H4].
Qed.

(** X2. When every article_status row has a matching article row,
    add_articles_batch returns exactly the number of article rows it added
    (the article count grows by the returned value), and the store keeps that
    property afterwards. *)
Theorem add_articles_batch_count : forall now rs d,
  status_rows_have_articles d = true ->
  exists n d',
    run (add_articles_batch now rs) d = (Ok n, d') /\
    status_rows_have_articles d' = true /\
    length (articles d') = (length (articles d) + n)%nat.
Proof.
  intros now rs d Hinv.
  destruct (batch_loop_count now rs 0 (mkCState d d false) Hinv) as (n & st' & H1 & H2 & H3).
  exists n, (working st'). unfold run, add_articles_batch, with_conn. rewrite H1.
  split; [reflexivity|]. split; [exact H2|]. cbn in H3. lia.
Qed.

Lemma find_some_in : forall (A : Type) (f : A -> bool) (l : list A) (x : A),
  find f l = Some x -> In x l /\ f x = true.
Proof. intros A f l x H. split; [eapply find_some; eauto|eapply find_some; eauto]. Qed.

Lemma add_tag_new_row : forall now name d,
  tag_row d name = None ->
  tag_row (set_tags d (tags d ++ [mkTag (fresh_tag_id d) name now]) (fresh_tag_id d)) name =
    Some (mkTag (fresh_tag_id d) name now).
Proof.
  intros now name d H. unfold tag_row in *. simpl. apply find_app_last; [exact H|].
  simpl. apply String.eqb_refl.
Qed.

(** X3. add_tag(name) returns the id of the tag named name and creates a tag
    only when none has that name: afterwards a tag with that name and id
    exists, a second add_tag(name) returns the same id and changes nothing,
    and when the tag already existed the first call returns its id and leaves
    the store unchanged. *)
Theorem add_tag_idempotent : forall now now' name d,
  exists i d1,
    run (add_tag now name) d = (Ok (Some i), d1) /\
    (exists t, tag_row d1 name = Some t /\ t_id t = i) /\
    run (add_tag now' name) d1 = (Ok (Some i), d1) /\
    (forall t, tag_row d name = Some t -> i = t_id t /\ d1 = d).
Proof.
  intros now now' name d. unfold run.
  destruct (add_tag_cases now name d) as [(t & Ht & Ha)|(Hn & Ha)].
  - exists (t_id t), d. rewrite Ha. split; [reflexivity|]. split; [eauto|].
    split.
    + destruct (add_tag_cases now' name d) as [(t' & Ht' & Ha')|(Hn' & _)]; [|congruence].
      rewrite Ha'. congruence.
    + intros t' Ht'. split; congruence.
  - set (d1 := set_tags d (tags d ++ [mkTag (fresh_tag_id d) name now]) (fresh_tag_id d)).
    exists (fresh_tag_id d), d1. rewrite Ha. split; [reflexivity|].
    pose proof (add_tag_new_row now name d Hn) as Hr. fold d1 in Hr.
    split; [eauto|]. split.
    + destruct (add_tag_cases now' name d1) as [(t' & Ht' & Ha')|(Hn' & _)]; [|congruence].
      rewrite Ha'. rewrite Hr in Ht'. inversion Ht'. reflexivity.
    + intros t Ht. congruence.
Qed.

Lemma tags_seq_add_tag : forall now name d,
  (tags_seq d <= tags_seq (snd (run (add_tag now name) d))) /\
  (tag_row d name = None ->
   fst (run (add_tag now name) d) = Ok (Some (tags_seq (snd (run (add_tag now name) d)))) /\
   tags_seq d < tags_seq (snd (run (add_tag now name) d)) /\
   (forall t, In t (tags d) -> t_id t < tags_seq (snd (run (add_tag now name) d)))).
Proof.
  intros now name d. unfold run.
  destruct (add_tag_cases now name d) as [(t & Ht & Ha)|(Hn & Ha)]; rewrite Ha; simpl.
  - split; [lia|]. intros. congruence.
  - unfold fresh_tag_id. split; [lia|]. intros _. split; [reflexivity|]. split; [lia|].
    intros t Ht. apply max_tag_id_ge in Ht. lia.
Qed.

Lemma tags_seq_tag_op : forall now op d, tags_seq d <= tags_seq (run_tag_op now op d).
Proof.
  intros now [name|aid name|aid name|] d; unfold run_tag_op.
  - apply (proj1 (tags_seq_add_tag now name d)).
  - destruct (add_tag_cases now name d) as [(t & Ht & Ha)|(Hn & Ha)].
    + destruct (add_article_tag_tables now aid name d _ _ Ha) as [_ [H _]]. rewrite H. lia.
    + destruct (add_article_tag_tables now aid name d _ _ Ha) as [_ [H _]]. rewrite H.
      simpl. unfold fresh_tag_id. lia.
  - rewrite (proj1 (proj2 (remove_article_tag_tables aid name d))). lia.
  - rewrite cleanup_orphan_tags_result. simpl. lia.
Qed.

Lemma tags_seq_tag_ops : forall now ops d, tags_seq d <= tags_seq (run_tag_ops now ops d).
Proof.
  intros now ops. induction ops as [|op ops IH]; intros d; simpl; [lia|].
  specialize (IH (run_tag_op now op d)). pose proof (tags_seq_tag_op now op d). lia.
Qed.

(** X4. Tag ids are never reused: if add_tag creates tag x with id i, then
    after any sequence of add_tag, add_article_tag, remove_article_tag and
    cleanup_orphan_tags calls (which may delete x), a tag y created afterwards
    gets an id j > i. *)
Theorem tag_ids_never_reused : forall now x y ops d i j,
  tag_row d x = None ->
  fst (run (add_tag now x) d) = Ok (Some i) ->
  tag_row (run_tag_ops now ops (snd (run (add_tag now x) d))) y = None ->
  fst (run (add_tag now y) (run_tag_ops now ops (snd (run (add_tag now x) d)))) = Ok (Some j) ->
  i < j.
Proof.
  intros now x y ops d i j Hx Hi Hy Hj.
  destruct (tags_seq_add_tag now x d) as [_ Hx'].
  destruct (Hx' Hx) as [Hi' _]. rewrite Hi in Hi'. inversion Hi'; subst i. clear Hi'.
  set (d2 := run_tag_ops now ops (snd (run (add_tag now x) d))) in *.
  destruct (tags_seq_add_tag now y d2) as [_ Hy'].
  destruct (Hy' Hy) as [Hj' [Hlt _]]. rewrite Hj in Hj'. inversion Hj'; subst j. clear Hj'.
  pose proof (tags_seq_tag_ops now ops (snd (run (add_tag now x) d))). fold d2 in H. lia.
Qed.

(** X5. cleanup_orphan_tags changes only the tags table (articles,
    article_status, article_tags and the tag id sequence are unchanged), and a
    second call right after the first deletes nothing and returns 0. *)
Theorem cleanup_orphan_tags_idempotent : forall d,
  let d1 := snd (run cleanup_orphan_tags d) in
  run cleanup_orphan_tags d1 = (Ok 0%nat, d1) /\
  articles d1 = articles d /\ article_status d1 = article_status d /\
  article_tags d1 = article_tags d /\ tags_seq d1 = tags_seq d.
Proof.
  intros d d1. subst d1. rewrite !cleanup_orphan_tags_result. simpl.
  repeat split; try reflexivity.
  assert (E1 : filter (fun t => negb (tag_is_linked d t)) (filter (tag_is_linked d) (tags d)) = []).
  { induction (tags d) as [|t l IH]; simpl; auto.
    destruct (tag_is_linked d t) eqn:Ht; simpl; [rewrite Ht; simpl; exact IH|exact IH]. }
  assert (E2 : filter (tag_is_linked d) (filter (tag_is_linked d) (tags d)) =
               filter (tag_is_linked d) (tags d)).
  { clear E1. induction (tags d) as [|t l IH]; simpl; auto.
    destruct (tag_is_linked d t) eqn:Ht; simpl; [rewrite Ht; f_equal; exact IH|exact IH]. }
  unfold tag_is_linked in *. simpl. rewrite E1, E2. reflexivity.
Qed.

Lemma add_article_tag_after_tag : forall now aid name d tid dA,
  add_tag now name false d = (Ok (Some tid), dA) ->
  run (add_article_tag now aid name) d =
    if existsb (fun l => String.eqb (at_article_id l) aid && (at_tag_id l =? tid)) (article_tags dA)
    then (Ok false, dA)
    else match promote_saved aid now
                 (set_article_tags dA (article_tags dA ++ [mkArticleTag aid tid now])) with
         | Ok (_, d') => (Ok true, d')
         | Raise e => (Raise e, dA)
         end.
Proof.
  intros now aid name d tid dA H.
  unfold run, add_article_tag, mbind. rewrite H.
  unfold with_conn, catch_integrity, sbind, exec, sret, insert_article_tag. cbn -[promote_saved].
  destruct (existsb _ _); reflexivity.
Qed.

Lemma add_tag_frame : forall now name d tid dA,
  add_tag now name false d = (Ok (Some tid), dA) ->
  articles dA = articles d /\ article_status dA = article_status d /\
  article_tags dA = article_tags d /\
  (exists t, tag_row dA name = Some t /\ t_id t = tid).
Proof.
  intros now name d tid dA H.
  destruct (add_tag_cases now name d) as [(t & Ht & Ha)|(Hn & Ha)]; rewrite Ha in H;
    inversion H; subst; clear H.
  - repeat split; eauto.
  - repeat split; try reflexivity. eexists; split; [apply add_tag_new_row; exact Hn|reflexivity].
Qed.

Lemma add_tag_some : forall now name d, exists tid dA, add_tag now name false d = (Ok (Some tid), dA).
Proof.
  intros now name d. destruct (add_tag_cases now name d) as [(t & Ht & Ha)|(Hn & Ha)]; eauto.
Qed.

Lemma filter_negb_existsb_false : forall (A : Type) (p : A -> bool) (l : list A),
  existsb p l = false -> filter (fun x => negb (p x)) l = l.
Proof.
  intros A p l H. induction l as [|x l IH]; simpl in *; auto.
  apply orb_false_iff in H. destruct H as [H1 H2]. rewrite H1. simpl. f_equal. auto.
Qed.

Lemma filter_key_none_gen : forall (A : Type) (p : A -> bool) (l : list A),
  existsb p l = false -> filter p l = [].
Proof.
  intros A p l H. induction l as [|x l IH]; simpl in *; auto.
  apply orb_false_iff in H. destruct H as [H1 H2]. rewrite H1. auto.
Qed.

(** X6. When add_article_tag(a, name) returns True, a following
    remove_article_tag(a, name) returns True and restores article_tags to its
    content before the add; the tags table stays as after the add (the tag is
    not deleted), the articles table is as before, and the article stays
    saved. *)
Theorem tag_link_round_trip : forall now aid name d d1,
  run (add_article_tag now aid name) d = (Ok true, d1) ->
  exists d2,
    run (remove_article_tag aid name) d1 = (Ok true, d2) /\
    article_tags d2 = article_tags d /\ tags d2 = tags d1 /\
    articles d2 = articles d /\ saved_flag d2 aid = true.
Proof.
  intros now aid name d d1 H.
  destruct (add_tag_some now name d) as (tid & dA & Ha).
  destruct (add_tag_frame now name d tid dA Ha) as (Fa & Fs & Fl & t & Ht & Hid).
  rewrite (add_article_tag_after_tag now aid name d tid dA Ha) in H.
  destruct (existsb _ (article_tags dA)) eqn:He; [discriminate|].
  destruct (promote_saved aid now (set_article_tags dA (article_tags dA ++ [mkArticleTag aid tid now])))
    as [[[] dL]|e] eqn:Hp; inversion H; subst d1; clear H.
  assert (HdL : tags dL = tags dA /\ articles dL = articles dA /\
                article_tags dL = article_tags dA ++ [mkArticleTag aid tid now] /\
                saved_flag dL aid = true).
  { unfold promote_saved, replace_status in Hp. inversion Hp; subst dL. cbn.
    split; [reflexivity|split; [reflexivity|split; [reflexivity|]]].
    unfold saved_flag, status_row. cbn. rewrite find_filter_app_last; [reflexivity|].
    simpl. apply String.eqb_refl. }
  destruct HdL as (T1 & T2 & T3 & T4).
  assert (Htl : tag_row dL name = Some t) by (unfold tag_row in *; rewrite T1; exact Ht).
  unfold run, remove_article_tag, with_conn, sbind, exec, sret, delete_article_tag.
  cbn [working committed]. rewrite Htl. rewrite T3, filter_app, filter_app. simpl.
  rewrite String.eqb_refl, Hid, Z.eqb_refl. simpl.
  set (p := fun l => String.eqb (at_article_id l) aid && (at_tag_id l =? tid)).
  assert (E0 : filter p (article_tags dA) = []).
  { apply filter_key_none_gen. exact He. }
  eexists. split.
  - rewrite E0. simpl. reflexivity.
  - cbn. rewrite app_nil_r. split; [|split; [reflexivity|split; [rewrite T2; exact Fa|exact T4]]].
    rewrite <- Fl. apply (filter_negb_existsb_false _ p). exact He.
Qed.

Lemma set_article_tags_same : forall d, set_article_tags d (article_tags d) = d.
Proof. intros [a s t l q]. reflexivity. Qed.

(** X7. remove_article_tag(a, name) when no link row joins article a to the
    tag named name (including when no such tag exists) returns False and
    leaves the store unchanged. *)
Theorem remove_absent_link_is_noop : forall aid name d,
  (forall t l, tag_row d name = Some t -> In l (article_tags d) -> at_article_id l = aid ->
               at_tag_id l <> t_id t) ->
  run (remove_article_tag aid name) d = (Ok false, d).
Proof.
  intros aid name d H.
  unfold run, remove_article_tag, with_conn, sbind, exec, sret, delete_article_tag. cbn [working committed].
  set (p := fun l => String.eqb (at_article_id l) aid &&
                     match tag_row d name with Some t => at_tag_id l =? t_id t | None => false end).
  assert (Hp : existsb p (article_tags d) = false).
  { apply Bool.not_true_iff_false. intros Hex. apply existsb_exists in Hex.
    destruct Hex as [l [Hl Hpl]]. unfold p in Hpl.
    destruct (tag_row d name) as [t|] eqn:Ht; [|rewrite andb_false_r in Hpl; discriminate].
    apply andb_true_iff in Hpl. destruct Hpl as [H1 H2].
    apply String.eqb_eq in H1. apply Z.eqb_eq in H2. exact (H t l eq_refl Hl H1 H2). }
  pose proof (filter_key_none_gen _ p _ Hp) as E1.
  pose proof (filter_negb_existsb_false _ p _ Hp) as E2.
  rewrite E1. cbv beta delta [p] in E2. rewrite E2.
  cbn. rewrite set_article_tags_same. reflexivity.
Qed.

Lemma in_article_tag_names : forall d aid x,
  In x (article_tag_names d aid) <->
  exists t l, In t (tags d) /\ In l (article_tags d) /\ t_id t = at_tag_id l /\
              at_article_id l = aid /\ t_name t = x.
Proof.
  intros d aid x. unfold article_tag_names. rewrite in_flat_map. split.
  - intros [t [Ht Hx]]. rewrite in_flat_map in Hx. destruct Hx as [l [Hl Hx]].
    destruct ((t_id t =? at_tag_id l) && String.eqb (at_article_id l) aid) eqn:E; [|destruct Hx].
    destruct Hx as [Hx|[]]. apply andb_true_iff in E. destruct E as [E1 E2].
    apply Z.eqb_eq in E1. apply String.eqb_eq in E2. exists t, l. auto.
  - intros (t & l & Ht & Hl & E1 & E2 & Hx). exists t. split; [exact Ht|].
    rewrite in_flat_map. exists l. split; [exact Hl|].
    rewrite E1, E2, Z.eqb_refl, String.eqb_refl. simpl. auto.
Qed.

(** X8. After add_article_tag(a, name) returns True, get_article_tags(a)
    contains name. *)
Theorem added_tag_is_listed : forall now aid name d d1 out,
  run (add_article_tag now aid name) d = (Ok true, d1) ->
  get_article_tags d1 aid out -> In name out.
Proof.
  intros now aid name d d1 out H [Hp _].
  apply (Permutation_in _ Hp). apply in_article_tag_names.
  destruct (add_tag_some now name d) as (tid & dA & Ha).
  destruct (add_tag_frame now name d tid dA Ha) as (Fa & Fs & Fl & t & Ht & Hid).
  rewrite (add_article_tag_after_tag now aid name d tid dA Ha) in H.
  destruct (existsb _ (article_tags dA)) eqn:He; [discriminate|].
  unfold promote_saved, replace_status in H. inversion H; subst d1; clear H.
  unfold tag_row in Ht. apply find_some_in in Ht. destruct Ht as [Ht Hn].
  apply String.eqb_eq in Hn.
  exists t, (mkArticleTag aid tid now). cbn. repeat split; auto.
  apply in_or_app. right. left. reflexivity.
Qed.

Lemma nodup_map_inj : forall (A B : Type) (f : A -> B) (l : list A) x y,
  NoDup (map f l) -> In x l -> In y l -> f x = f y -> x = y.
Proof.
  intros A B f l x y Hnd Hx Hy E. induction l as [|z l IH]; [destruct Hx|].
  simpl in Hnd. inversion Hnd as [|? ? Hnot Hnd']; subst.
  destruct Hx as [<-|Hx], Hy as [<-|Hy]; auto.
  - exfalso. apply Hnot. rewrite E. apply in_map. exact Hy.
  - exfalso. apply Hnot. rewrite <- E. apply in_map. exact Hx.
Qed.

(** X9. When tag names are unique, after remove_article_tag(a, name) the list
    get_article_tags(a) does not contain name. *)
Theorem removed_tag_is_not_listed : forall aid name d out,
  NoDup (map t_name (tags d)) ->
  get_article_tags (snd (run (remove_article_tag aid name) d)) aid out -> ~ In name out.
Proof.
  intros aid name d out Hnd [Hp _] Hin.
  apply (Permutation_in _ (Permutation_sym Hp)) in Hin. apply in_article_tag_names in Hin.
  destruct (remove_article_tag_tables aid name d) as (T1 & _ & T3).
  rewrite T1, T3 in Hin. destruct Hin as (t & l & Ht & Hl & E1 & E2 & E3).
  apply filter_In in Hl. destruct Hl as [_ Hl].
  unfold tag_row in Hl. destruct (find _ (tags d)) as [t'|] eqn:Hf.
  - apply find_some_in in Hf. destruct Hf as [Ht' Hn']. apply String.eqb_eq in Hn'.
    assert (t = t') by (apply (nodup_map_inj _ _ t_name (tags d)); congruence).
    subst t'. rewrite E2, String.eqb_refl, <- E1, Z.eqb_refl in Hl. discriminate.
  - assert (Hnone := find_none _ _ Hf t Ht). simpl in Hnone. rewrite E3, String.eqb_refl in Hnone.
    discriminate.
Qed.

Lemma left_join_tagged_has_tags : forall d a ht,
  In ht (left_join_tagged d a) -> ht = article_has_tags d (a_id a).
Proof.
  intros d a ht H. unfold left_join_tagged in H.
  destruct (filter (String.eqb (a_id a)) (distinct_tagged d)) as [|x l] eqn:F.
  - destruct H as [<-|[]]. symmetry. apply Bool.not_true_iff_false. intros Hex.
    unfold article_has_tags in Hex. apply existsb_exists in Hex. destruct Hex as [lk [Hl E]].
    apply String.eqb_eq in E.
    assert (Hin : In (a_id a) (filter (String.eqb (a_id a)) (distinct_tagged d))).
    { apply filter_In. split; [|apply String.eqb_refl].
      unfold distinct_tagged. apply nodup_In. rewrite <- E. apply in_map. exact Hl. }
    rewrite F in Hin. destruct Hin.
  - apply in_map_iff in H. destruct H as [y [<- _]]. symmetry.
    assert (Hx : In x (filter (String.eqb (a_id a)) (distinct_tagged d))) by (rewrite F; left; auto).
    apply filter_In in Hx. destruct Hx as [Hx E]. apply String.eqb_eq in E. subst x.
    unfold distinct_tagged in Hx. apply nodup_In in Hx. apply in_map_iff in Hx.
    destruct Hx as [lk [E Hl]]. unfold article_has_tags. apply existsb_exists.
    exists lk. split; [exact Hl|]. rewrite E. apply String.eqb_refl.
Qed.

(** X10. The has_tags column of a listing row agrees with article_has_tags for
    the row's article: in the rows of the article listings (all, by category,
    unread, search, with notes) and of get_saved_articles it equals
    article_has_tags, and every row of get_articles_by_tag has has_tags = 1
    and article_has_tags True. *)
Theorem has_tags_column_matches_article_has_tags : forall d c p tag_name q r,
  (In r (select_rows c p d) -> row_has_tags r = article_has_tags d (a_id (row_article r))) /\
  (In r (select_saved d) -> row_has_tags r = article_has_tags d (a_id (row_article r))) /\
  (In r (select_by_tag d tag_name q) ->
     row_has_tags r = true /\ article_has_tags d (a_id (row_article r)) = true).
Proof.
  intros d c p tag_name q r. split; [|split].
  - intros H. apply in_select_rows in H. destruct H as (a & so & ht & _ & _ & _ & Hht & ->).
    simpl. apply left_join_tagged_has_tags. exact Hht.
  - intros H. unfold select_saved in H. apply in_flat_map in H. destruct H as [a [_ H]].
    apply in_flat_map in H. destruct H as [s [_ H]].
    destruct (_ && _); [|destruct H].
    apply in_map_iff in H. destruct H as [ht [<- Hht]]. simpl.
    apply left_join_tagged_has_tags. exact Hht.
  - intros H. unfold select_by_tag in H. apply in_flat_map in H. destruct H as [a [_ H]].
    apply in_flat_map in H. destruct H as [so [_ H]].
    destruct (q so); [|destruct H].
    apply in_map_iff in H. destruct H as [u [<- Hu]]. simpl. split; [reflexivity|].
    unfold tag_join in Hu. apply in_flat_map in Hu. destruct Hu as [lk [Hl Hu]].
    destruct (String.eqb (at_article_id lk) (a_id a)) eqn:E; [|destruct Hu].
    unfold article_has_tags. apply existsb_exists. exists lk. auto.
Qed.

(** X11. After cleanup_orphan_tags, every entry of get_all_tags has an article
    count of at least 1 and is a tag of the store before the cleanup, and
    every tag that had at least one link before the cleanup is listed with its
    link count. *)
Theorem all_tags_after_cleanup_are_used : forall d out,
  get_all_tags (snd (run cleanup_orphan_tags d)) out ->
  (forall t n, In (t, n) out -> (1 <= n)%nat /\ In t (tags d)) /\
  (forall t, In t (tags d) -> tag_is_linked d t = true -> In (t, tag_link_count d t) out).
Proof.
  intros d out [Hp _]. rewrite cleanup_orphan_tags_result in Hp. simpl in Hp. split.
  - intros t n Hin. apply (Permutation_in _ (Permutation_sym Hp)) in Hin.
    apply in_map_iff in Hin. destruct Hin as [t' [E Ht']]. inversion E; subst t' n. clear E.
    apply filter_In in Ht'. destruct Ht' as [Ht Hl]. split; [|exact Ht].
    unfold tag_link_count. simpl. unfold tag_is_linked in Hl.
    apply existsb_exists in Hl. destruct Hl as [lk [Hlk E]].
    assert (In lk (filter (fun l => at_tag_id l =? t_id t) (article_tags d))) by (apply filter_In; auto).
    revert H. generalize (filter (fun l => at_tag_id l =? t_id t) (article_tags d)). intros [|x r] H; [destruct H|simpl; lia].
  - intros t Ht Hl. apply (Permutation_in _ Hp). apply in_map_iff. exists t. split; [reflexivity|].
    apply filter_In. auto.
Qed.

Lemma lower_ascii_idem : forall c, lower_ascii (lower_ascii c) = lower_ascii c.
Proof. intros [[|] [|] [|] [|] [|] [|] [|] [|]]; reflexivity. Qed.

Lemma lower_ascii_percent : forall c, Ascii.eqb (lower_ascii c) "%"%char = Ascii.eqb c "%"%char.
Proof. intros [[|] [|] [|] [|] [|] [|] [|] [|]]; reflexivity. Qed.

Lemma lower_ascii_underscore : forall c, Ascii.eqb (lower_ascii c) "_"%char = Ascii.eqb c "_"%char.
Proof. intros [[|] [|] [|] [|] [|] [|] [|] [|]]; reflexivity. Qed.

Lemma existsb_map_gen : forall (A B : Type) (f : B -> bool) (g : A -> B) (l : list A),
  existsb f (map g l) = existsb (fun x => f (g x)) l.
Proof. intros A B f g l. induction l as [|x l IH]; simpl; [reflexivity|]. rewrite IH. reflexivity. Qed.

Lemma existsb_ext_gen : forall (A : Type) (f g : A -> bool) (l : list A),
  (forall x, f x = g x) -> existsb f l = existsb g l.
Proof. intros A f g l H. induction l as [|x l IH]; simpl; [reflexivity|]. rewrite H, IH. reflexivity. Qed.

Lemma suffixes_str_map : forall f s, suffixes (str_map f s) = map (str_map f) (suffixes s).
Proof. intros f s. induction s as [|c s IH]; simpl; [reflexivity|]. rewrite IH. reflexivity. Qed.

Lemma like_match_lower : forall p s,
  like_match (str_map lower_ascii p) (str_map lower_ascii s) = like_match p s.
Proof.
  intros p. induction p as [|c p IH]; intros s.
  - destruct s; reflexivity.
  - cbn [str_map like_match]. rewrite lower_ascii_percent, lower_ascii_underscore.
    destruct (Ascii.eqb c "%"%char).
    + rewrite suffixes_str_map, existsb_map_gen. apply existsb_ext_gen. intros t. apply IH.
    + destruct (Ascii.eqb c "_"%char).
      * destruct s; simpl; [reflexivity|apply IH].
      * destruct s as [|c' s]; simpl; [reflexivity|]. rewrite !lower_ascii_idem, IH. reflexivity.
Qed.

Lemma str_map_app : forall f s t, str_map f (s ++ t) = (str_map f s ++ str_map f t)%string.
Proof. intros f s t. induction s as [|c s IH]; simpl; [reflexivity|]. rewrite IH. reflexivity. Qed.

Lemma text_match_lower_sql : forall q a, text_match_lower (sql_lower q) a = text_match q a.
Proof.
  intros q a. unfold text_match_lower, text_match, sql_lower.
  assert (E : (("%" ++ str_map lower_ascii q ++ "%") = str_map lower_ascii ("%" ++ q ++ "%"))%string).
  { rewrite !str_map_app. reflexivity. }
  rewrite E, !like_match_lower. reflexivity.
Qed.

Lemma like_match_empty_suffix : forall s, existsb (fun t => like_match EmptyString t) (suffixes s) = true.
Proof. intros s. induction s as [|c s IH]; [reflexivity|]. cbn [suffixes existsb]. rewrite IH. apply orb_true_r. Qed.

Lemma text_match_empty : forall a, text_match EmptyString a = true.
Proof.
  intros a.
  assert (H : forall s, like_match ("%" ++ EmptyString ++ "%")%string s = true).
  { intros s. change (existsb (fun t => existsb (fun u => like_match EmptyString u) (suffixes t))
                              (suffixes s) = true).
    destruct s as [|c s]; [reflexivity|]. cbn [suffixes existsb].
    rewrite like_match_empty_suffix. reflexivity. }
  unfold text_match. cbv zeta. rewrite !H. reflexivity.
Qed.

Lemma count_unread_listing : forall p d out,
  ordered_desc Z.le by_published (select_rows false p d) out ->
  length (filter unread_row out) = count_rows (fun a so => p a so && unviewed so) d.
Proof.
  intros p d out [Hp _]. apply (perm_filter _ unread_row) in Hp. apply Permutation_length in Hp.
  rewrite <- Hp, filter_unread_select_rows, select_rows_length. reflexivity.
Qed.

Lemma unread_count_by_filter_rows : forall d cats q others R now out,
  search_articles_in_categories d q cats R now out ->
  (cats <> [] \/ q <> EmptyString) ->
  py_lower q = sql_lower q ->
  get_unread_count_by_filter d (mkFilterConfig (Some cats) (Some q) others) R now =
    length (filter unread_row out).
Proof.
  intros d cats q others R now out Hs Hne Hpy.
  unfold get_unread_count_by_filter, flt_is_empty. cbn [flt_categories flt_query].
  destruct cats as [|c cs].
  - destruct Hne as [Hne|Hne]; [congruence|].
    destruct q as [|ch q']; [congruence|]. cbn [truthy_list truthy_str].
    rewrite (count_unread_listing _ _ _ Hs). apply count_rows_ext. intros a so.
    rewrite Hpy, text_match_lower_sql.
    destruct (text_match _ a), (unviewed so), (feed_retention_filter R now a so); reflexivity.
  - cbn [truthy_list]. unfold search_articles_in_categories in Hs.
    rewrite (count_unread_listing _ _ _ Hs).
    destruct q as [|ch q']; cbn [truthy_str]; apply count_rows_ext; intros a so.
    + rewrite text_match_empty.
      destruct (any_category _ a) eqn:Ea; unfold any_category in Ea; rewrite Ea;
        destruct (unviewed so), (feed_retention_filter R now a so); reflexivity.
    + rewrite Hpy, text_match_lower_sql.
      destruct (any_category _ a) eqn:Ea; unfold any_category in Ea; rewrite Ea;
        destruct (text_match _ a), (unviewed so), (feed_retention_filter R now a so); reflexivity.
Qed.

(** X12. When Python's lower() of the query q agrees with SQLite's
    ASCII-only lowering of q (q has no capital letter outside ASCII),
    get_unread_count_by_filter with categories cats and query q, at least one
    of them non-empty, equals the number of unread rows (is_viewed NULL or 0)
    of search_articles_in_categories(q, cats) with the same retention window;
    when neither a categories nor a query value is truthy it returns 0. *)
Theorem unread_count_by_filter_matches_search : forall d cats q others R now out,
  (search_articles_in_categories d q cats R now out ->
   (cats <> [] \/ q <> EmptyString) ->
   py_lower q = sql_lower q ->
   get_unread_count_by_filter d (mkFilterConfig (Some cats) (Some q) others) R now =
     length (filter unread_row out)) /\
  (forall cats0 q0, truthy_list cats0 = false -> truthy_str q0 = false ->
   get_unread_count_by_filter d (mkFilterConfig cats0 q0 others) R now = 0%nat).
Proof.
  intros d cats q others R now out. split.
  - intros Hs Hne Hpy. exact (unread_count_by_filter_rows d cats q others R now out Hs Hne Hpy).
  - intros cats0 q0 Hc Hq. unfold get_unread_count_by_filter. cbn [flt_categories flt_query]. rewrite Hc, Hq.
    destruct (flt_is_empty _); reflexivity.
Qed.

Lemma unread_saved_one_article : forall d a ss,
  length (filter (fun s => String.eqb (s_article_id s) (a_id a) && is_saved s && negb (is_viewed s)) ss) =
  length (filter unread_row
            (flat_map (fun s => if String.eqb (s_article_id s) (a_id a) && is_saved s
                                then map (mk_row false a (Some s)) (left_join_tagged d a) else []) ss)).
Proof.
  intros d a ss. induction ss as [|s ss IHs]; [reflexivity|].
  cbn [flat_map filter]. rewrite filter_app, length_app, <- IHs.
  destruct (String.eqb (s_article_id s) (a_id a) && is_saved s) eqn:E; simpl.
  - pose proof (left_join_tagged_length d a) as HL.
    destruct (left_join_tagged d a) as [|b [|b' r]]; simpl in HL; try discriminate.
    unfold unread_row. simpl. destruct (is_viewed s); simpl; lia.
  - reflexivity.
Qed.

(** X13. get_unread_saved_count equals the number of unread rows (is_viewed
    NULL or 0) of get_saved_articles. *)
Theorem unread_saved_count_matches_saved_listing : forall d out,
  get_saved_articles d out -> get_unread_saved_count d = length (filter unread_row out).
Proof.
  intros d out [Hp _]. apply (perm_filter _ unread_row) in Hp. apply Permutation_length in Hp.
  rewrite <- Hp. unfold select_saved, get_unread_saved_count.
  rewrite filter_flat_map. induction (articles d) as [|a l IH]; [reflexivity|].
  cbn [flat_map]. rewrite !length_app, IH. f_equal. apply unread_saved_one_article.
Qed.

(** X14. get_unread_count_with_notes equals the number of unread rows
    (is_viewed NULL or 0) of get_articles_with_notes. *)
Theorem unread_notes_count_matches_notes_listing : forall d out,
  get_articles_with_notes d out -> get_unread_count_with_notes d = length (filter unread_row out).
Proof.
  intros d out H. rewrite (count_unread_listing _ _ _ H). reflexivity.
Qed.

Lemma count_rows_le : forall p d,
  NoDup (map s_article_id (article_status d)) -> (count_rows p d <= length (articles d))%nat.
Proof.
  intros p d Hnd. unfold count_rows, joined.
  induction (articles d) as [|a l IH]; simpl; [lia|].
  rewrite filter_app, length_app. rewrite (left_join_status_row d a Hnd). simpl.
  destruct (p a _); simpl; lia.
Qed.

Lemma count_rows_all : forall d,
  NoDup (map s_article_id (article_status d)) -> count_rows (fun _ _ => true) d = length (articles d).
Proof.
  intros d Hnd. unfold count_rows, joined.
  induction (articles d) as [|a l IH]; simpl; [reflexivity|].
  rewrite filter_app, length_app. rewrite (left_join_status_row d a Hnd). simpl. lia.
Qed.

(** X15. When article_status holds at most one row per article id,
    get_feed_articles_count without a retention window equals
    get_all_articles_count, and with any retention window it is at most
    get_all_articles_count. *)
Theorem feed_count_bounded_by_total : forall d R now,
  NoDup (map s_article_id (article_status d)) ->
  get_feed_articles_count d None now = get_all_articles_count d /\
  (get_feed_articles_count d (Some R) now <= get_all_articles_count d)%nat.
Proof.
  intros d R now Hnd. split.
  - apply count_rows_all. exact Hnd.
  - apply count_rows_le. exact Hnd.
Qed.

Lemma set_articles_same : forall d, set_articles d (articles d) = d.
Proof. intros [a s t l q]. reflexivity. Qed.

Lemma find_none_filter_nil : forall (A : Type) (f : A -> bool) (l : list A),
  find f l = None -> filter f l = [].
Proof.
  intros A f l H. induction l as [|x l IH]; simpl in *; auto.
  destruct (f x); [discriminate|auto].
Qed.

(** X16. For an existing article, set_notes_path(a, p) returns True and
    get_notes_path(a) then returns p; a following clear_notes_path(a) returns
    True, after which get_notes_path(a) returns None and the article is still
    saved. For an id with no article row, set_notes_path and clear_notes_path
    both return False and change nothing. *)
Theorem notes_path_round_trip : forall now aid path d,
  (article_row d aid <> None ->
   exists d1 d2,
     run (set_notes_path now aid path) d = (Ok true, d1) /\ get_notes_path d1 aid = Some path /\
     run (clear_notes_path aid) d1 = (Ok true, d2) /\ get_notes_path d2 aid = None /\
     saved_flag d2 aid = true) /\
  (article_row d aid = None ->
   run (set_notes_path now aid path) d = (Ok false, d) /\
   run (clear_notes_path aid) d = (Ok false, d)).
Proof.
  intros now aid path d. split.
  - intros Hr. destruct (article_row d aid) as [a|] eqn:Ha; [|congruence]. clear Hr.
    unfold article_row in Ha.
    assert (Hn : Nat.ltb 0 (length (filter (fun a => String.eqb (a_id a) aid) (articles d))) = true).
    { apply find_some_filter_length. congruence. }
    set (upd := fun (p : option string) (b : article) =>
                  mkArticle (a_id b) (entry_id b) (title b) (authors b) (summary b)
                    (categories b) (published_date b) (pdf_url b) (citation_count b)
                    (citations_updated_at b) (created_at b) (updated_at b) p).
    set (dU := set_articles d (map (fun b => if String.eqb (a_id b) aid then upd (Some path) b else b)
                                   (articles d))).
    assert (HfU : find (fun b => String.eqb (a_id b) aid) (articles dU) = Some (upd (Some path) a)).
    { apply find_map_update; [intros y Hy; exact Hy|exact Ha]. }
    unfold promote_saved, replace_status.
    set (d1 := set_status dU (filter (fun t => negb (String.eqb (s_article_id t) aid)) (article_status dU) ++
                 [mkStatus aid true (match status_row dU aid with Some s => is_viewed s | None => false end)
                    (Some now)
                    (match status_row dU aid with Some s => viewed_at s | None => None end)])).
    assert (Hset : run (set_notes_path now aid path) d = (Ok true, d1)).
    { unfold run, set_notes_path, with_conn, sbind, exec, sret, update_notes. cbn [working].
      rewrite Hn. reflexivity. }
    assert (Hf1 : find (fun b => String.eqb (a_id b) aid) (articles d1) = Some (upd (Some path) a))
      by exact HfU.
    assert (Hn1 : Nat.ltb 0 (length (filter (fun a => String.eqb (a_id a) aid) (articles d1))) = true).
    { apply find_some_filter_length. congruence. }
    set (d2 := set_articles d1 (map (fun b => if String.eqb (a_id b) aid then upd None b else b)
                                    (articles d1))).
    assert (Hclr : run (clear_notes_path aid) d1 = (Ok true, d2)).
    { unfold run, clear_notes_path, with_conn, sbind, exec, sret, clear_notes. cbn [working].
      rewrite Hn1. reflexivity. }
    assert (Hf2 : find (fun b => String.eqb (a_id b) aid) (articles d2) = Some (upd None (upd (Some path) a))).
    { apply find_map_update; [intros y Hy; exact Hy|exact Hf1]. }
    exists d1, d2. split; [exact Hset|]. split.
    + unfold get_notes_path, article_row. rewrite Hf1. reflexivity.
    + split; [exact Hclr|]. split.
      * unfold get_notes_path, article_row. rewrite Hf2. reflexivity.
      * unfold saved_flag, status_row. cbn. rewrite find_filter_app_last; [reflexivity|].
        simpl. apply String.eqb_refl.
  - intros Hr. unfold article_row in Hr.
    pose proof (find_none_filter_nil _ _ _ Hr) as E.
    pose proof (find_none_map_id _ _ (fun b =>
                  mkArticle (a_id b) (entry_id b) (title b) (authors b) (summary b)
                    (categories b) (published_date b) (pdf_url b) (citation_count b)
                    (citations_updated_at b) (created_at b) (updated_at b) (Some path)) _ Hr) as M1.
    pose proof (find_none_map_id _ _ (fun b =>
                  mkArticle (a_id b) (entry_id b) (title b) (authors b) (summary b)
                    (categories b) (published_date b) (pdf_url b) (citation_count b)
                    (citations_updated_at b) (created_at b) (updated_at b) None) _ Hr) as M2.
    cbv beta in M1, M2. split.
    + unfold run, set_notes_path, with_conn, sbind, exec, sret, update_notes. cbn [working].
      rewrite E, M1. simpl. rewrite set_articles_same. reflexivity.
    + unfold run, clear_notes_path, with_conn, sbind, exec, sret, clear_notes. cbn [working].
      rewrite E, M2. simpl. rewrite set_articles_same. reflexivity.
Qed.

Lemma find_map_skip : forall (A : Type) (f p : A -> bool) (g : A -> A) (l : list A),
  (forall x, p x = true -> f x = false /\ f (g x) = false) ->
  find f (map (fun x => if p x then g x else x) l) = find f l.
Proof.
  intros A f p g l H. induction l as [|x l IH]; simpl; auto.
  destruct (p x) eqn:Hp.
  - destruct (H x Hp) as [H1 H2]. now rewrite H1, H2.
  - destruct (f x); auto.
Qed.

Lemma find_app_skip : forall (A : Type) (f : A -> bool) (l : list A) (x : A),
  f x = false -> find f (l ++ [x]) = find f l.
Proof.
  intros A f l x Hx. induction l as [|y l IH]; simpl; [now rewrite Hx|].
  destruct (f y); auto.
Qed.

Lemma find_map_comm : forall (A : Type) (f : A -> bool) (h : A -> A) (l : list A),
  (forall x, f (h x) = f x) -> find f (map h l) = option_map h (find f l).
Proof.
  intros A f h l H. induction l as [|x l IH]; simpl; auto.
  rewrite H. destruct (f x); auto.
Qed.

Lemma eqb_neq_false : forall a b : string, a <> b -> String.eqb a b = false.
Proof. intros a b H. apply String.eqb_neq. exact H. Qed.

Lemma status_update_frame : forall aid (p : status -> bool) (f : status -> status) d,
  (forall s, p s = true -> s_article_id s = aid) ->
  (forall s, s_article_id (f s) = s_article_id s) ->
  touches_only aid d (set_status d (map (fun s => if p s then f s else s) (article_status d))).
Proof.
  intros aid p f d Hp Hf. unfold touches_only. cbn. repeat split; auto.
  intros aid' Hne. unfold status_row. cbn. apply find_map_skip.
  intros x Hx. rewrite Hf, (Hp x Hx). split; apply eqb_neq_false; congruence.
Qed.

Lemma touches_only_refl : forall aid d, touches_only aid d d.
Proof. intros aid d. unfold touches_only. repeat split; auto. Qed.

Lemma mark_article_saved_cases : forall now aid d,
  mark_article_saved now aid false d =
  match status_row d aid with
  | None => (Ok true, set_status d (article_status d ++ [mkStatus aid true false (Some now) None]))
  | Some s =>
      if is_saved s then (Ok false, d)
      else (Ok true, set_status d (map (fun t => if String.eqb (s_article_id t) aid
                                                  then mkStatus (s_article_id t) true (is_viewed t) (Some now) (viewed_at t)
                                                  else t) (article_status d)))
  end.
Proof.
  intros now aid d.
  unfold mark_article_saved, with_conn, sbind, query, exec, sret. cbn -[insert_status update_status].
  destruct (status_row d aid) as [s|] eqn:Hs.
  - destruct (is_saved s); reflexivity.
  - unfold insert_status. cbn. unfold status_row in Hs.
    rewrite (find_none_existsb _ _ _ Hs). reflexivity.
Qed.

Lemma mark_article_saved_effect : forall now aid d,
  exists d', mark_article_saved now aid false d = (Ok (negb (saved_flag d aid)), d') /\
             touches_only aid d d' /\
             status_row d' aid =
               Some (mkStatus aid true (viewed_flag d aid)
                       (match status_row d aid with
                        | Some s => if is_saved s then saved_at s else Some now
                        | None => Some now end)
                       (viewed_time d aid)).
Proof.
  intros now aid d. rewrite mark_article_saved_cases.
  unfold saved_flag, viewed_flag, viewed_time.
  destruct (status_row d aid) as [s|] eqn:Hs.
  - assert (Hid : s_article_id s = aid).
    { unfold status_row in Hs. apply find_some in Hs. destruct Hs as [_ H].
      now apply String.eqb_eq in H. }
    destruct (is_saved s) eqn:Hv.
    + eexists. split; [reflexivity|]. split; [apply touches_only_refl|].
      rewrite Hs. destruct s; cbn in *; subst; reflexivity.
    + eexists. split; [reflexivity|]. split.
      * apply status_update_frame; [|reflexivity].
        intros t Ht. now apply String.eqb_eq in Ht.
      * unfold status_row in *. cbn.
        rewrite (find_map_update _ (fun t => String.eqb (s_article_id t) aid)
                   (fun t => mkStatus (s_article_id t) true (is_viewed t) (Some now) (viewed_at t))
                   _ s); auto.
        now rewrite Hid.
  - eexists. split; [reflexivity|]. split.
    + unfold touches_only. cbn. repeat split; auto.
      intros aid' Hne. unfold status_row. cbn. apply find_app_skip. cbn.
      apply eqb_neq_false. congruence.
    + unfold status_row in *. cbn. apply find_app_last; [exact Hs|]. apply String.eqb_refl.
Qed.

Lemma update_status_run : forall (p : status -> bool) (f : status -> status) d,
  with_conn (n <- exec (update_status p f) ;; sret (Nat.ltb 0 n)) false d =
  (Ok (Nat.ltb 0 (length (filter p (article_status d)))),
   set_status d (map (fun s => if p s then f s else s) (article_status d))).
Proof. intros p f d. reflexivity. Qed.

Lemma mark_article_viewed_run : forall now aid d,
  mark_article_viewed now aid false d =
  (Ok tt, set_status d (map (fun s => if String.eqb (s_article_id s) aid && negb (is_viewed s)
                                      then mkStatus (s_article_id s) (is_saved s) true (saved_at s) (Some now)
                                      else s) (article_status d))).
Proof. intros now aid d. reflexivity. Qed.

Lemma andb_eqb_id : forall aid (b : status -> bool) s,
  String.eqb (s_article_id s) aid && b s = true -> s_article_id s = aid.
Proof.
  intros aid b s H. apply andb_true_iff in H. destruct H as [H _].
  now apply String.eqb_eq in H.
Qed.

Lemma saved_flag_of_status_row : forall d d' aid,
  status_row d' aid = status_row d aid -> saved_flag d' aid = saved_flag d aid.
Proof. intros d d' aid H. unfold saved_flag. now rewrite H. Qed.

Lemma mark_article_viewed_saved_flags : forall now aid d j,
  saved_flag (snd (mark_article_viewed now aid false d)) j = saved_flag d j.
Proof.
  intros now aid d j. rewrite mark_article_viewed_run. unfold saved_flag, status_row. cbn.
  rewrite find_map_comm.
  - destruct (find _ (article_status d)) as [s|]; cbn; auto.
    destruct (String.eqb (s_article_id s) aid && negb (is_viewed s)); reflexivity.
  - intros x. destruct (String.eqb (s_article_id x) aid && negb (is_viewed x)); reflexivity.
Qed.

Lemma migrate_saved_spec : forall now ids st d,
  NoDup ids ->
  exists d',
    migrate_saved now ids st false d =
      (Ok (mkStats (saved_migrated st + length (filter (fun i => negb (saved_flag d i)) ids))
                   (viewed_migrated st) (errors st)), d') /\
    (forall i, In i ids -> saved_flag d' i = true) /\
    (forall j, ~ In j ids -> saved_flag d' j = saved_flag d j).
Proof.
  intros now ids. induction ids as [|i ids IH]; intros st d Hnd.
  - exists d. cbn. rewrite Nat.add_0_r. destruct st; split; [reflexivity|]. split; [intros i []|auto].
  - inversion Hnd as [|? ? Hni Hnd']; subst.
    destruct (mark_article_saved_effect now i d) as [d1 [Hrun [[_ [_ [_ [_ Hfr]]]] Hrow]]].
    assert (Hs1 : saved_flag d1 i = true) by (unfold saved_flag; now rewrite Hrow).
    assert (Hoth : forall j, j <> i -> saved_flag d1 j = saved_flag d j)
      by (intros j Hj; apply saved_flag_of_status_row, Hfr, Hj).
    destruct (IH (if negb (saved_flag d i) then add_saved st else st) d1 Hnd')
      as [d' [Hrun' [Hin Hout]]].
    exists d'. cbn [migrate_saved]. unfold mtry. rewrite Hrun, Hrun'.
    assert (Hf : filter (fun i0 => negb (saved_flag d1 i0)) ids =
                 filter (fun i0 => negb (saved_flag d i0)) ids).
    { apply filter_ext_in. intros j Hj. rewrite Hoth; [reflexivity|]. congruence. }
    rewrite Hf. split.
    + cbn [filter]. destruct (negb (saved_flag d i)); cbn; destruct st; cbn. all: repeat f_equal; lia.
    + split.
      * intros j [Hj|Hj]; [subst j; rewrite Hout; auto|auto].
      * intros j Hj. rewrite Hout; [|intro; apply Hj; right; auto].
        apply Hoth. intro; apply Hj; left; auto.
Qed.

Lemma migrate_viewed_spec : forall now urls st d,
  exists d',
    migrate_viewed now urls st false d =
      (Ok (mkStats (saved_migrated st) (viewed_migrated st + length (filter has_abs urls))
                   (errors st)), d') /\
    (forall j, saved_flag d' j = saved_flag d j).
Proof.
  intros now urls. induction urls as [|u urls IH]; intros st d.
  - exists d. cbn. rewrite Nat.add_0_r. destruct st; split; auto.
  - cbn [migrate_viewed filter]. destruct (has_abs u).
    + set (d1 := snd (mark_article_viewed now (abs_id u) false d)).
      destruct (IH (add_viewed st) d1) as [d' [Hrun Hfl]].
      exists d'. unfold mtry.
      replace (mark_article_viewed now (abs_id u) false d) with (Ok tt, d1)
        by (unfold d1; now rewrite mark_article_viewed_run).
      rewrite Hrun. split.
      * destruct st; cbn. repeat f_equal; lia.
      * intros j. rewrite Hfl. unfold d1. apply mark_article_viewed_saved_flags.
    + destruct (IH st d) as [d' [Hrun Hfl]]. exists d'. split; auto.
Qed.

Lemma find_filter_keep : forall (A : Type) (f q : A -> bool) (l : list A),
  (forall x, f x = true -> q x = true) -> find f (filter q l) = find f l.
Proof.
  intros A f q l H. induction l as [|x l IH]; simpl; auto.
  destruct (q x) eqn:Hq; simpl.
  - destruct (f x); auto.
  - destruct (f x) eqn:Hf; [rewrite (H x Hf) in Hq; discriminate|auto].
Qed.

Lemma find_none_intro : forall (A : Type) (f : A -> bool) (l : list A),
  (forall x, In x l -> f x = false) -> find f l = None.
Proof.
  intros A f l H. induction l as [|x l IH]; simpl; auto.
  rewrite (H x (or_introl eq_refl)). apply IH. intros y Hy. apply H. now right.
Qed.

Lemma nodup_map_filter : forall (A B : Type) (g : A -> B) (q : A -> bool) (l : list A),
  NoDup (map g l) -> NoDup (map g (filter q l)).
Proof.
  intros A B g q l H. induction l as [|x l IH]; simpl in *; auto.
  inversion H as [|? ? Hn Hd]; subst. destruct (q x); simpl; [|auto].
  constructor; [|auto]. intro Hin. apply Hn. apply in_map_iff in Hin.
  destruct Hin as [y [Hy Hin]]. apply filter_In in Hin. destruct Hin as [Hin _].
  apply in_map_iff. eauto.
Qed.

(** X17. After update_category_fetch_info(code, name, n),
    get_category_fetch_info(code) returns the row (code, name, now, n);
    get_category_fetch_info of any other code returns what it returned before;
    category codes remain unique. *)
Theorem category_fetch_info_round_trip : forall now code name n tbl code',
  get_category_fetch_info (update_category_fetch_info now code name n tbl) code =
    Some (mkFetched code name now n) /\
  (code' <> code ->
   get_category_fetch_info (update_category_fetch_info now code name n tbl) code' =
   get_category_fetch_info tbl code') /\
  (NoDup (map category_code tbl) ->
   NoDup (map category_code (update_category_fetch_info now code name n tbl))).
Proof.
  intros now code name n tbl code'. unfold get_category_fetch_info, update_category_fetch_info.
  split; [|split].
  - apply (find_app_last _ (fun r => String.eqb (category_code r) code)).
    + apply find_none_intro. intros x Hx. apply filter_In in Hx. destruct Hx as [_ Hx].
      destruct (String.eqb (category_code x) code); [discriminate|reflexivity].
    + apply String.eqb_refl.
  - intros Hne. rewrite find_app_skip by (apply eqb_neq_false; cbn; congruence).
    apply find_filter_keep. intros x Hx. apply String.eqb_eq in Hx.
    rewrite Hx. now rewrite eqb_neq_false.
  - intros Hnd. rewrite map_app. apply NoDup_app; auto using nodup_map_filter.
    + constructor; [intros []|constructor].
    + intros x Hx Hx'. simpl in Hx'. destruct Hx' as [Hx'|[]]. subst x.
      apply in_map_iff in Hx. destruct Hx as [y [Hy Hin]]. apply filter_In in Hin.
      destruct Hin as [_ Hin]. rewrite Hy, String.eqb_refl in Hin. discriminate.
Qed.

(** X18. mark_article_saved, mark_article_unsaved, mark_article_viewed and
    mark_article_unread on article a leave the articles, tags and article_tags
    tables and the tag id sequence unchanged, and the status row of every
    other article id unchanged. *)
Theorem mark_ops_touch_only_their_row : forall now aid d,
  touches_only aid d (snd (run (mark_article_saved now aid) d)) /\
  touches_only aid d (snd (run (mark_article_unsaved aid) d)) /\
  touches_only aid d (snd (run (mark_article_viewed now aid) d)) /\
  touches_only aid d (snd (run (mark_article_unread aid) d)).
Proof.
  intros now aid d. split; [|split; [|split]].
  - destruct (mark_article_saved_effect now aid d) as [d' [Hr [Ht _]]].
    unfold run. now rewrite Hr.
  - unfold run, mark_article_unsaved. rewrite update_status_run. cbn [snd].
    apply status_update_frame; [apply andb_eqb_id|reflexivity].
  - unfold run. rewrite mark_article_viewed_run. cbn [snd].
    apply status_update_frame; [apply andb_eqb_id|reflexivity].
  - unfold run, mark_article_unread. rewrite update_status_run. cbn [snd].
    apply status_update_frame; [apply andb_eqb_id|reflexivity].
Qed.

(** X19. mark_article_saved(a) returns True exactly when a was not saved
    before (a missing status row counting as unsaved); a following
    mark_article_unsaved(a) returns True and leaves the status row with
    is_saved = 0 and saved_at NULL, and with is_viewed and viewed_at as before
    the two calls. *)
Theorem mark_saved_then_unsaved : forall now aid d,
  fst (run (mark_article_saved now aid) d) = Ok (negb (saved_flag d aid)) /\
  fst (run (mark_article_unsaved aid) (snd (run (mark_article_saved now aid) d))) = Ok true /\
  status_row (snd (run (mark_article_unsaved aid) (snd (run (mark_article_saved now aid) d)))) aid =
    Some (mkStatus aid false (viewed_flag d aid) None (viewed_time d aid)).
Proof.
  intros now aid d.
  destruct (mark_article_saved_effect now aid d) as [d1 [Hr [_ Hrow]]].
  unfold run. rewrite Hr. cbn [fst snd]. split; [reflexivity|].
  unfold mark_article_unsaved. rewrite update_status_run. cbn [fst snd].
  unfold status_row in Hrow. split.
  - f_equal. apply find_some_filter_length.
    intro Hn. pose proof (find_none _ _ Hn) as Hn'.
    apply find_some in Hrow. destruct Hrow as [Hin Heq].
    specialize (Hn' _ Hin). cbn in Hn', Heq. rewrite Heq in Hn'. discriminate.
  - unfold status_row. cbn. rewrite find_map_comm.
    + rewrite Hrow. cbn. now rewrite String.eqb_refl.
    + intros x. destruct (String.eqb (s_article_id x) aid && is_saved x); reflexivity.
Qed.

Lemma status_row_after_viewed : forall now aid e t,
  status_row e aid = Some t ->
  status_row (snd (run (mark_article_viewed now aid) e)) aid =
    Some (if is_viewed t then t else mkStatus (s_article_id t) (is_saved t) true (saved_at t) (Some now)).
Proof.
  intros now aid e t Ht. unfold run. rewrite mark_article_viewed_run. unfold status_row in *. cbn.
  rewrite find_map_comm.
  - rewrite Ht. cbn. apply find_some in Ht. destruct Ht as [_ Ht]. rewrite Ht.
    destruct (is_viewed t); reflexivity.
  - intros x. destruct (String.eqb (s_article_id x) aid && negb (is_viewed x)); reflexivity.
Qed.

(** X20. For an article with a status row, mark_article_unread followed by
    mark_article_viewed at time t leaves the row viewed with viewed_at = t and
    is_saved, saved_at unchanged; a further mark_article_viewed leaves the row
    unchanged (the first view time is kept). *)
Theorem mark_unread_then_viewed : forall now now' aid d s,
  status_row d aid = Some s ->
  let d1 := snd (run (mark_article_unread aid) d) in
  let d2 := snd (run (mark_article_viewed now aid) d1) in
  let d3 := snd (run (mark_article_viewed now' aid) d2) in
  status_row d2 aid = Some (mkStatus aid (is_saved s) true (saved_at s) (Some now)) /\
  status_row d3 aid = status_row d2 aid.
Proof.
  intros now now' aid d s Hs d1 d2 d3.
  assert (Hid : s_article_id s = aid).
  { unfold status_row in Hs. apply find_some in Hs. destruct Hs as [_ H].
    now apply String.eqb_eq in H. }
  assert (H1 : status_row d1 aid =
               Some (if is_viewed s then mkStatus aid (is_saved s) false (saved_at s) None else s)).
  { unfold d1, run, mark_article_unread. rewrite update_status_run. unfold status_row in *. cbn.
    rewrite find_map_comm.
    - rewrite Hs. cbn. rewrite Hid, String.eqb_refl. cbn. reflexivity.
    - intros x. destruct (String.eqb (s_article_id x) aid && is_viewed x); reflexivity. }
  unfold d3, d2. rewrite (status_row_after_viewed now aid d1 _ H1).
  rewrite (status_row_after_viewed now' aid _ _ (status_row_after_viewed now aid d1 _ H1)).
  destruct (is_viewed s) eqn:Hv; cbn; rewrite ?Hv, ?Hid; cbn; split; reflexivity.
Qed.

Lemma migrated_ids_nodup : forall locs, NoDup (migrated_ids locs).
Proof.
  intros locs. unfold migrated_ids. destruct (first_found locs); [apply NoDup_nodup|constructor].
Qed.

Lemma migrate_run : forall now sl vl d,
  exists d',
    run (migrate_from_text_files now sl vl) d =
      (Ok (mkStats (length (filter (fun i => negb (saved_flag d i)) (migrated_ids sl)))
                   (length (filter has_abs (migrated_ids vl))) 0), d') /\
    (forall i, In i (migrated_ids sl) -> saved_flag d' i = true).
Proof.
  intros now sl vl d.
  assert (Hs : exists d1,
            (match first_found sl with
             | None => mret (mkStats 0 0 0)
             | Some lines => migrate_saved now (line_set lines) (mkStats 0 0 0)
             end) false d =
            (Ok (mkStats (length (filter (fun i => negb (saved_flag d i)) (migrated_ids sl))) 0 0), d1) /\
            (forall i, In i (migrated_ids sl) -> saved_flag d1 i = true)).
  { pose proof (migrated_ids_nodup sl) as Hnd. unfold migrated_ids in *.
    destruct (first_found sl) as [lines|].
    - destruct (migrate_saved_spec now (line_set lines) (mkStats 0 0 0) d Hnd)
        as [d1 [Hr [Hin _]]].
      exists d1. split; [exact Hr|exact Hin].
    - exists d. split; [reflexivity|intros i []]. }
  destruct Hs as [d1 [Hr1 Hin1]].
  unfold run, migrate_from_text_files, mbind. rewrite Hr1.
  change (migrated_ids vl) with
    (match first_found vl with Some lines => line_set lines | None => [] end).
  destruct (first_found vl) as [lines|].
  - destruct (migrate_viewed_spec now (line_set lines)
                (mkStats (length (filter (fun i => negb (saved_flag d i)) (migrated_ids sl))) 0 0) d1)
      as [d' [Hr Hfl]].
    exists d'. rewrite Hr. split; [reflexivity|].
    intros i Hi. rewrite Hfl. auto.
  - exists d1. split; [reflexivity|exact Hin1].
Qed.

Lemma find_none_filter_nil_alt : forall (A : Type) (f : A -> bool) (l : list A),
  (forall x, In x l -> f x = false) -> filter f l = [].
Proof.
  intros A f l H. induction l as [|x l IH]; simpl; auto.
  rewrite (H x (or_introl eq_refl)). apply IH. intros y Hy. apply H. now right.
Qed.

(** X21. migrate_from_text_files records no error: reading the first existing
    file of each kind, saved_migrated is the number of distinct stripped non-
    empty ids that were not already saved, viewed_migrated is the number of
    distinct stripped non-empty lines that contain 'abs/', and errors is 0;
    afterwards every listed id is saved, and a second run reports 0 saved and
    the same viewed count. *)
Theorem migrate_from_text_files_stats : forall now now' sl vl d,
  exists d',
    run (migrate_from_text_files now sl vl) d =
      (Ok (mkStats (length (filter (fun i => negb (saved_flag d i)) (migrated_ids sl)))
                   (length (filter has_abs (migrated_ids vl))) 0), d') /\
    (forall i, In i (migrated_ids sl) -> saved_flag d' i = true) /\
    fst (run (migrate_from_text_files now' sl vl) d') =
      Ok (mkStats 0 (length (filter has_abs (migrated_ids vl))) 0).
Proof.
  intros now now' sl vl d.
  destruct (migrate_run now sl vl d) as [d' [Hr Hin]].
  exists d'. split; [exact Hr|]. split; [exact Hin|].
  destruct (migrate_run now' sl vl d') as [d'' [Hr' _]]. rewrite Hr'. cbn.
  replace (filter (fun i => negb (saved_flag d' i)) (migrated_ids sl)) with (@nil string);
    [reflexivity|].
  symmetry. apply find_none_filter_nil_alt. intros i Hi. rewrite (Hin i Hi). reflexivity.
Qed.

Lemma add_articles_batch_ingests_witness :
  exists n d' added,
    run (add_articles_batch 5 [result1; result1]) empty_db = (Ok n, d') /\
    articles d' = articles empty_db ++ added /\
    (forall r, In r [result1; result1] -> has_article d' (r_short_id r) = true) /\
    run (add_articles_batch 6 [result1; result1]) d' = (Ok 0%nat, d').
Proof. exact (add_articles_batch_ingests 5 6 [result1; result1] empty_db). Defined.

Lemma add_articles_batch_count_witness :
  status_rows_have_articles db_tagged = true /\
  exists n d',
    run (add_articles_batch 5 [result1; result1]) db_tagged = (Ok n, d') /\
    status_rows_have_articles d' = true /\
    length (articles d') = (length (articles db_tagged) + n)%nat.
Proof.
  split; [reflexivity|]. apply add_articles_batch_count. reflexivity.
Defined.

Lemma add_tag_idempotent_witness :
  exists i d1,
    run (add_tag 0 "x"%string) db_tagged = (Ok (Some i), d1) /\
    (exists t, tag_row d1 "x"%string = Some t /\ t_id t = i) /\
    run (add_tag 1 "x"%string) d1 = (Ok (Some i), d1) /\
    (forall t, tag_row db_tagged "x"%string = Some t -> i = t_id t /\ d1 = db_tagged).
Proof. exact (add_tag_idempotent 0 1 "x"%string db_tagged). Defined.

Lemma tag_ids_never_reused_witness : 1 < 2.
Proof.
  apply (tag_ids_never_reused 0 "x"%string "y"%string
           [AddArticleTag id1 "x"%string; RemoveArticleTag id1 "x"%string; CleanupOrphanTags] empty_db 1 2);
    vm_compute; reflexivity.
Defined.

Lemma cleanup_orphan_tags_idempotent_witness :
  let d1 := snd (run cleanup_orphan_tags db_two_tags) in
  run cleanup_orphan_tags d1 = (Ok 0%nat, d1) /\
  articles d1 = articles db_two_tags /\ article_status d1 = article_status db_two_tags /\
  article_tags d1 = article_tags db_two_tags /\ tags_seq d1 = tags_seq db_two_tags.
Proof. exact (cleanup_orphan_tags_idempotent db_two_tags). Defined.

Lemma tag_link_round_trip_witness :
  exists d2,
    run (remove_article_tag id1 "y"%string) (snd (run (add_article_tag 0 id1 "y"%string) db_tagged)) = (Ok true, d2) /\
    article_tags d2 = article_tags db_tagged /\
    tags d2 = tags (snd (run (add_article_tag 0 id1 "y"%string) db_tagged)) /\
    articles d2 = articles db_tagged /\ saved_flag d2 id1 = true.
Proof.
  apply (tag_link_round_trip 0 id1 "y"%string db_tagged). vm_compute. reflexivity.
Defined.

Lemma remove_absent_link_is_noop_witness :
  run (remove_article_tag id2 "x"%string) db_tagged = (Ok false, db_tagged).
Proof.
  apply remove_absent_link_is_noop. intros t l _ [<-|[]] H. vm_compute in H. discriminate.
Defined.

Lemma added_tag_is_listed_witness :
  In "y"%string ["x"%string; "y"%string].
Proof.
  apply (added_tag_is_listed 0 id1 "y"%string db_tagged (snd (run (add_article_tag 0 id1 "y"%string) db_tagged))).
  - vm_compute. reflexivity.
  - split; [vm_compute; apply Permutation_refl|repeat constructor].
Defined.

Lemma removed_tag_is_not_listed_witness :
  ~ In "x"%string ["y"%string].
Proof.
  apply (removed_tag_is_not_listed id1 "x"%string db_two_tags).
  - vm_compute. constructor; [intros [H|[]]; discriminate|constructor; [intros []|constructor]].
  - split; [vm_compute; apply Permutation_refl|repeat constructor].
Defined.

Lemma has_tags_column_matches_article_has_tags_witness :
  row_has_tags (mkRow (art id1 0 ["cs.AI"%string]) (Some false) (Some false) None None true) =
  article_has_tags db_tagged id1.
Proof.
  apply (proj1 (has_tags_column_matches_article_has_tags db_tagged false (fun _ _ => true) "x"%string
                  (fun _ => true)
                  (mkRow (art id1 0 ["cs.AI"%string]) (Some false) (Some false) None None true))).
  vm_compute. left. reflexivity.
Defined.

Lemma all_tags_after_cleanup_are_used_witness :
  (forall t n, In (t, n) [(mkTag 1 "x"%string 0, 1%nat)] -> (1 <= n)%nat /\
     In t (tags (snd (run (remove_article_tag id1 "y"%string) db_two_tags)))) /\
  (forall t, In t (tags (snd (run (remove_article_tag id1 "y"%string) db_two_tags))) ->
     tag_is_linked (snd (run (remove_article_tag id1 "y"%string) db_two_tags)) t = true ->
     In (t, tag_link_count (snd (run (remove_article_tag id1 "y"%string) db_two_tags)) t)
        [(mkTag 1 "x"%string 0, 1%nat)]).
Proof.
  apply all_tags_after_cleanup_are_used.
  split; [vm_compute; apply Permutation_refl|repeat constructor].
Defined.

Lemma unread_count_by_filter_matches_search_witness :
  get_unread_count_by_filter db_tagged (mkFilterConfig (Some ["cs.AI"%string]) (Some "TITLE"%string) []) None 0 =
  length (filter unread_row
            (select_rows false (fun a so => existsb (fun c => in_category c a) ["cs.AI"%string] &&
                                            text_match "TITLE"%string a &&
                                            feed_retention_filter None 0 a so) db_tagged)) /\
  get_unread_count_by_filter db_tagged (mkFilterConfig (Some []) (Some ""%string) []) None 0 = 0%nat.
Proof.
  split.
  - apply (proj1 (unread_count_by_filter_matches_search db_tagged ["cs.AI"%string] "TITLE"%string [] None 0
                    _)).
    + split; [apply Permutation_refl|]. cbv -[Z.le]. repeat constructor.
    + left. discriminate.
    + reflexivity.
  - apply (proj2 (unread_count_by_filter_matches_search db_tagged [] ""%string [] None 0 [])); reflexivity.
Defined.

Lemma unread_saved_count_matches_saved_listing_witness :
  get_unread_saved_count db_saved_two = length (filter unread_row (select_saved db_saved_two)).
Proof.
  apply unread_saved_count_matches_saved_listing.
  split; [apply Permutation_refl|]. cbv -[Z.le]. repeat constructor. lia.
Defined.

Lemma unread_notes_count_matches_notes_listing_witness :
  get_unread_count_with_notes db_with_note =
  length (filter unread_row (select_rows false (fun a _ => has_notes a) db_with_note)).
Proof.
  apply unread_notes_count_matches_notes_listing.
  split; [apply Permutation_refl|]. cbv -[Z.le]. repeat constructor.
Defined.

Lemma feed_count_bounded_by_total_witness :
  get_feed_articles_count db_saved_two None 0 = get_all_articles_count db_saved_two /\
  (get_feed_articles_count db_saved_two (Some 1%Z) 0%Z <= get_all_articles_count db_saved_two)%nat.
Proof.
  apply feed_count_bounded_by_total. vm_compute.
  constructor; [intros [H|[]]; discriminate|constructor; [intros []|constructor]].
Defined.

Lemma notes_path_round_trip_witness :
  (exists d1 d2,
     run (set_notes_path 1 id1 "notes.md"%string) db_tagged = (Ok true, d1) /\
     get_notes_path d1 id1 = Some "notes.md"%string /\
     run (clear_notes_path id1) d1 = (Ok true, d2) /\ get_notes_path d2 id1 = None /\
     saved_flag d2 id1 = true) /\
  run (set_notes_path 1 id2 "notes.md"%string) db_tagged = (Ok false, db_tagged) /\
  run (clear_notes_path id2) db_tagged = (Ok false, db_tagged).
Proof.
  split.
  - apply (proj1 (notes_path_round_trip 1 id1 "notes.md"%string db_tagged)). vm_compute. discriminate.
  - apply (proj2 (notes_path_round_trip 1 id2 "notes.md"%string db_tagged)). reflexivity.
Defined.

Lemma category_fetch_info_round_trip_witness :
  get_category_fetch_info
    (update_category_fetch_info 9 "cs.AI"%string "AI"%string 12 [mkFetched "cs.LG"%string "ML"%string 3 4; mkFetched "cs.AI"%string "AI"%string 1 2])
    "cs.LG"%string = Some (mkFetched "cs.LG"%string "ML"%string 3 4) /\
  NoDup (map category_code
    (update_category_fetch_info 9 "cs.AI"%string "AI"%string 12 [mkFetched "cs.LG"%string "ML"%string 3 4; mkFetched "cs.AI"%string "AI"%string 1 2])).
Proof.
  destruct (category_fetch_info_round_trip 9 "cs.AI"%string "AI"%string 12
              [mkFetched "cs.LG"%string "ML"%string 3 4; mkFetched "cs.AI"%string "AI"%string 1 2] "cs.LG"%string) as [_ [H2 H3]].
  split.
  - rewrite H2; [reflexivity|discriminate].
  - apply H3. cbn. constructor; [intros [H|[]]; discriminate|constructor; [intros []|constructor]].
Defined.

Lemma mark_ops_touch_only_their_row_witness :
  touches_only id1 db_saved_two (snd (run (mark_article_saved 0 id1) db_saved_two)) /\
  touches_only id1 db_saved_two (snd (run (mark_article_unsaved id1) db_saved_two)) /\
  touches_only id1 db_saved_two (snd (run (mark_article_viewed 0 id1) db_saved_two)) /\
  touches_only id1 db_saved_two (snd (run (mark_article_unread id1) db_saved_two)).
Proof. exact (mark_ops_touch_only_their_row 0 id1 db_saved_two). Defined.

Lemma mark_saved_then_unsaved_witness :
  fst (run (mark_article_saved 3 id1) db_old_viewed) = Ok (negb (saved_flag db_old_viewed id1)) /\
  fst (run (mark_article_unsaved id1) (snd (run (mark_article_saved 3 id1) db_old_viewed))) = Ok true /\
  status_row (snd (run (mark_article_unsaved id1) (snd (run (mark_article_saved 3 id1) db_old_viewed)))) id1 =
    Some (mkStatus id1 false (viewed_flag db_old_viewed id1) None (viewed_time db_old_viewed id1)).
Proof. exact (mark_saved_then_unsaved 3 id1 db_old_viewed). Defined.

Lemma mark_unread_then_viewed_witness :
  let d1 := snd (run (mark_article_unread id1) db_old_viewed) in
  let d2 := snd (run (mark_article_viewed 8 id1) d1) in
  let d3 := snd (run (mark_article_viewed 9 id1) d2) in
  status_row d2 id1 = Some (mkStatus id1 false true None (Some 8)) /\
  status_row d3 id1 = status_row d2 id1.
Proof.
  apply (mark_unread_then_viewed 8 9 id1 db_old_viewed (mkStatus id1 false true None (Some 5))).
  reflexivity.
Defined.

Lemma migrate_from_text_files_stats_witness :
  exists d',
    run (migrate_from_text_files 7 two_files_saved two_files_viewed) empty_db =
      (Ok (mkStats (length (filter (fun i => negb (saved_flag empty_db i)) (migrated_ids two_files_saved)))
                   (length (filter has_abs (migrated_ids two_files_viewed))) 0), d') /\
    (forall i, In i (migrated_ids two_files_saved) -> saved_flag d' i = true) /\
    fst (run (migrate_from_text_files 8 two_files_saved two_files_viewed) d') =
      Ok (mkStats 0 (length (filter has_abs (migrated_ids two_files_viewed))) 0).
Proof. exact (migrate_from_text_files_stats 7 8 two_files_saved two_files_viewed empty_db). Defined.

(** ** C1: the promotion invariant *)

(** C1 (amended).  When [add_article_tag] inserts a new (article, tag) link,
    i.e. returns [True], the article ends up with [is_saved = true] and its
    [is_viewed] flag and [viewed_at] timestamp are what they were before (a
    missing status row reading as unviewed, no timestamp).  When the link
    already exists, [add_article_tag] returns [False] and changes nothing, so
    it does not promote.  For an article that exists, [set_notes_path]
    returns [True] with the same effect on the status row as a new link. *)
Theorem promotion_on_new_link_or_notes : forall now aid tag_name path d,
  (fst (run (add_article_tag now aid tag_name) d) = Ok true ->
   promotes d (snd (run (add_article_tag now aid tag_name) d)) aid) /\
  (forall t l, tag_row d tag_name = Some t ->
   In l (article_tags d) -> at_article_id l = aid -> at_tag_id l = t_id t ->
   run (add_article_tag now aid tag_name) d = (Ok false, d)) /\
  (article_row d aid <> None ->
   fst (run (set_notes_path now aid path) d) = Ok true /\
   promotes d (snd (run (set_notes_path now aid path) d)) aid).
Proof.
  intros now aid tag_name path d. split; [|split].
  - intros H. apply (proj2 (add_article_tag_outcome now aid tag_name d) H).
  - intros t l Ht Hl Ha Hi. exact (add_article_tag_existing_link now aid tag_name d t l Ht Hl Ha Hi).
  - intros Hex. unfold run, set_notes_path, with_conn, sbind, exec, sret, update_notes.
    cbn -[promote_saved]. apply find_some_filter_length in Hex. unfold article_row in Hex.
    destruct (length (filter _ (articles d))) as [|k]; [discriminate|].
    cbn -[promote_saved].
    destruct (promote_saved aid now _) as [[[] d3]|e] eqn:Hp; cbn -[promote_saved].
    + split; [reflexivity|]. eapply promote_saved_promotes; [|exact Hp]. reflexivity.
    + unfold promote_saved, replace_status in Hp. discriminate.
Qed.

Lemma promotion_on_new_link_or_notes_witness :
  promotes db_untagged (snd (run (add_article_tag 100 id1 "x"%string) db_untagged)) id1 /\
  run (add_article_tag 100 id1 "x"%string) db_tagged = (Ok false, db_tagged) /\
  fst (run (set_notes_path 100 id1 "notes.md"%string) db_untagged) = Ok true.
Proof.
  split; [|split].
  - apply (proj1 (promotion_on_new_link_or_notes 100 id1 "x"%string "notes.md"%string db_untagged)).
    reflexivity.
  - apply (proj1 (proj2 (promotion_on_new_link_or_notes 100 id1 "x"%string "notes.md"%string
                           db_tagged)) (mkTag 1 "x"%string 0) (mkArticleTag id1 1 0));
      simpl; auto.
  - apply (proj2 (proj2 (promotion_on_new_link_or_notes 100 id1 "x"%string "notes.md"%string
                           db_untagged))).
    discriminate.
Defined.

(** ** C6: operations on an id that was never ingested *)

(** C6 (amended).  [mark_article_saved] and [add_article_tag] do not check
    that the article exists and raise no NotFound error: for an id with no
    [articles] row, [mark_article_saved] returns normally and leaves a status
    row with [is_saved = true]; [add_article_tag] returns normally and leaves
    a tag named [tag_name] (creating it if needed), and when it returns
    [True] it has appended the link (id, that tag) to [article_tags] and left
    a status row with [is_saved = true]. *)
Theorem unknown_id_operations_create_state : forall now aid tag_name d,
  article_row d aid = None ->
  (exists b, fst (run (mark_article_saved now aid) d) = Ok b) /\
  saved_flag (snd (run (mark_article_saved now aid) d)) aid = true /\
  (exists b, fst (run (add_article_tag now aid tag_name) d) = Ok b) /\
  (exists t, tag_row (snd (run (add_article_tag now aid tag_name) d)) tag_name = Some t) /\
  (fst (run (add_article_tag now aid tag_name) d) = Ok true ->
   saved_flag (snd (run (add_article_tag now aid tag_name) d)) aid = true /\
   exists t, tag_row (snd (run (add_article_tag now aid tag_name) d)) tag_name = Some t /\
     article_tags (snd (run (add_article_tag now aid tag_name) d)) =
       article_tags d ++ [mkArticleTag aid (t_id t) now]).
Proof.
  intros now aid tag_name d _.
  destruct (mark_article_saved_outcome now aid d) as [H1 H2].
  destruct (add_article_tag_outcome now aid tag_name d) as [H3 H4].
  split; [exact H1|]. split; [exact H2|]. split; [exact H3|].
  destruct (add_tag_some now tag_name d) as (tid & dA & HA).
  destruct (add_tag_frame now tag_name d tid dA HA) as (_ & _ & Hl & t & Ht & Hid).
  rewrite (add_article_tag_after_tag now aid tag_name d tid dA HA) in H4 |- *.
  destruct (existsb _ (article_tags dA)).
  - split; [exists t; exact Ht|]. intros Hf. discriminate.
  - unfold promote_saved, replace_status in H4 |- *. cbn in H4 |- *.
    split; [exists t; exact Ht|]. intros Htrue. split; [apply (proj1 (proj1 (H4 Htrue)))|].
    exists t. split; [exact Ht|]. rewrite Hl, Hid. reflexivity.
Qed.

Lemma unknown_id_operations_create_state_witness :
  article_row empty_db id1 = None /\
  saved_flag (snd (run (mark_article_saved 100 id1) empty_db)) id1 = true /\
  article_tags (snd (run (add_article_tag 100 id1 "x"%string) empty_db)) =
    [mkArticleTag id1 1 100].
Proof.
  split; [reflexivity|]. split.
  - exact (proj1 (proj2 (unknown_id_operations_create_state 100 id1 "x"%string empty_db eq_refl))).
  - destruct (proj2 (proj2 (proj2 (proj2 (unknown_id_operations_create_state 100 id1 "x"%string
                                            empty_db eq_refl)))) eq_refl) as [_ [t [Ht ->]]].
    vm_compute in Ht. injection Ht as <-. reflexivity.
Defined.

(** ** C4: counters against listings *)


